(** * Late fusion of the multimodal Parkinson's analysis service

    A shallow embedding of [backend/services/multimodal_service.py]
    (class [MultimodalAnalysisService]) and of the endpoint
    [multimodal_analysis] of [backend/main.py].

    Python's [float] is IEEE binary64.  The arithmetic of the source is
    written once, over an interface [PyNum], and read twice:
    - at [float], Rocq's primitive binary64 floats, with the rounding the
      interpreter performs;
    - at [Q], the exact rationals: the same formulas without rounding.
    Statements that hold for both are proved once, from the laws of
    [PyNumLaws]; statements about exact values are proved at [Q], and the
    binary64 reading shows where rounding departs from them. *)

From Stdlib Require Import List Ascii String ZArith QArith Qabs Floats Uint63.
From Stdlib Require Import Bool Lia Lqa Permutation Morphisms.
Import ListNotations.

Set Warnings "-inexact-float".
Local Open Scope string_scope.
Local Open Scope list_scope.

(** ** Numbers *)

(** The operations the source applies to floats: literals, [+], [-], [*],
    [/], [>] and [==]. *)
Class PyNum (F : Type) := {
  lit : Q -> F;            (* a decimal literal of the source text *)
  add : F -> F -> F;
  sub : F -> F -> F;
  mul : F -> F -> F;
  div : F -> F -> F;       (* only reached with a divisor that is not zero *)
  gtb : F -> F -> bool;    (* [x > y] *)
  eqb : F -> F -> bool     (* [x == y] *)
}.

(** What fusion relies on when every weight vanishes, and what the strict
    comparison excludes.  Both readings of the arithmetic satisfy it. *)
Class PyNumLaws (F : Type) `{PyNum F} : Prop := {
  eqb_zero_refl : eqb (lit 0) (lit 0) = true;
  eqb_not_gtb : forall x y, eqb x y = true -> gtb x y = false;
  add_zero_zero : forall x y,
      eqb x (lit 0) = true -> eqb y (lit 0) = true ->
      eqb (add x y) (lit 0) = true
}.

(** *** Exact reading *)

Definition Qgtb (x y : Q) : bool := negb (Qle_bool x y).

#[export] Instance PyNum_Q : PyNum Q := {|
  lit := fun q => q;
  add := Qplus;
  sub := Qminus;
  mul := Qmult;
  div := Qdiv;
  gtb := Qgtb;
  eqb := Qeq_bool
|}.

(** *** binary64 reading *)

Definition Z2float (z : Z) : float :=
  match z with
  | Z0 => PrimFloat.zero
  | Zpos _ => PrimFloat.of_uint63 (Uint63.of_Z z)
  | Zneg p => PrimFloat.opp (PrimFloat.of_uint63 (Uint63.of_Z (Zpos p)))
  end.

(** A decimal literal denotes the binary64 value nearest to it.  Numerator
    and denominator of the literals used here are small integers, exact in
    binary64, and IEEE division rounds their quotient to nearest. *)
Definition float_lit (q : Q) : float :=
  PrimFloat.div (Z2float (Qnum q)) (Z2float (Zpos (Qden q))).

#[export] Instance PyNum_float : PyNum float := {|
  lit := float_lit;
  add := PrimFloat.add;
  sub := PrimFloat.sub;
  mul := PrimFloat.mul;
  div := PrimFloat.div;
  gtb := fun x y => PrimFloat.ltb y x;
  eqb := PrimFloat.eqb
|}.

(** ** Data *)

(** One modality's result dict, as far as fusion reads it.  A key that is
    absent is [None]; the record with every field [None] also stands for
    an empty dict or [None], which [if result and ...] skips. *)
Record result (F : Type) := mk_result {
  probability_pd : option F;
  probability_healthy : option F;
  confidence : option F
}.
Arguments mk_result {F}.
Arguments probability_pd {F}.
Arguments probability_healthy {F}.
Arguments confidence {F}.

(** [individual_results]: a dict, iterated in insertion order. *)
Definition results (F : Type) := list (string * result F).

(** The dict [_perform_late_fusion] returns. *)
Record verdict (F : Type) := mk_verdict {
  fusion_prediction : Z;
  fusion_prediction_label : string;
  fusion_confidence : F;
  fusion_probability_pd : F;
  fusion_probability_healthy : F
}.
Arguments mk_verdict {F}.
Arguments fusion_prediction {F}.
Arguments fusion_prediction_label {F}.
Arguments fusion_confidence {F}.
Arguments fusion_probability_pd {F}.
Arguments fusion_probability_healthy {F}.

(** The four running totals of the loop. *)
Record totals (F : Type) := mk_totals {
  total_weighted_probability : F;
  total_weight : F;
  total_confidence : F;
  available_models : nat
}.
Arguments mk_totals {F}.
Arguments total_weighted_probability {F}.
Arguments total_weight {F}.
Arguments total_confidence {F}.
Arguments available_models {F}.

(** ** [_perform_late_fusion] *)

Section Fusion.
Context {F : Type} `{PyNum F}.

Definition base_weights : list (string * F) :=
  [("voice", lit 0.20); ("datscan", lit 0.50); ("spiral", lit 0.30)].

(** [d.get(key, default)] *)
Fixpoint dict_get {V : Type} (d : list (string * V)) (key : string)
    (default : V) : V :=
  match d with
  | [] => default
  | (k, v) :: d' => if String.eqb k key then v else dict_get d' key default
  end.

Definition base_weight_of (model_type : string) : F :=
  dict_get base_weights model_type (lit 0.1).

(** [result.get('confidence', 0.5)] *)
Definition confidence_of (r : result F) : F :=
  match confidence r with Some c => c | None => lit 0.5 end.

Definition adjusted_weight (model_type : string) (r : result F) : F :=
  mul (base_weight_of model_type) (confidence_of r).

Definition initial_totals : totals F := mk_totals (lit 0) (lit 0) (lit 0) 0.

(** One turn of the loop over [individual_results.items()]. *)
Definition fusion_step (t : totals F) (item : string * result F) : totals F :=
  let (model_type, r) := item in
  match probability_pd r with
  | Some p =>
      let w := adjusted_weight model_type r in
      mk_totals (add (total_weighted_probability t) (mul p w))
                (add (total_weight t) w)
                (add (total_confidence t) (confidence_of r))
                (S (available_models t))
  | None => t
  end.

Definition fusion_totals (individual_results : results F) : totals F :=
  fold_left fusion_step individual_results initial_totals.

(** An int used as a float operand. *)
Definition of_nat (n : nat) : F := lit (inject_Z (Z.of_nat n)).

Definition fallback_verdict : verdict F :=
  mk_verdict 0 "Insufficient Data" (lit 0) (lit 0.5) (lit 0.5).

Definition _perform_late_fusion (individual_results : results F) : verdict F :=
  let t := fusion_totals individual_results in
  if gtb (total_weight t) (lit 0) then
    let fusion_probability_pd :=
      div (total_weighted_probability t) (total_weight t) in
    let fusion_probability_healthy := sub (lit 1) fusion_probability_pd in
    let fusion_confidence :=
      if (0 <? available_models t)%nat
      then div (total_confidence t) (of_nat (available_models t))
      else lit 0 in
    let fusion_prediction :=
      if gtb fusion_probability_pd (lit 0.5) then 1%Z else 0%Z in
    let fusion_prediction_label :=
      if (fusion_prediction =? 1)%Z then "Parkinson's Disease" else "Healthy" in
    mk_verdict fusion_prediction fusion_prediction_label fusion_confidence
               fusion_probability_pd fusion_probability_healthy
  else fallback_verdict.
End Fusion.


(** ** [_generate_recommendations] *)

Section Narrator.
Context {F : Type} `{PyNum F}.

(** [key in individual_results] *)
Definition has_key (key : string) (individual_results : results F) : bool :=
  existsb (fun item => String.eqb key (fst item)) individual_results.

(** [recommendations.append(item)] *)
Definition append (recommendations : list string) (item : string) : list string :=
  recommendations ++ [item].

Definition _generate_recommendations (fusion_result : verdict F)
    (individual_results : results F) : list string :=
  let recommendations := [] in
  let prediction := fusion_prediction fusion_result in
  let confidence := fusion_confidence fusion_result in
  let recommendations :=
    if (prediction =? 1)%Z then
      let recommendations :=
        if gtb confidence (lit 0.7) then
          let recommendations :=
            append recommendations "Schedule comprehensive neurological evaluation" in
          let recommendations :=
            append recommendations "Consider referral to movement disorder specialist" in
          append recommendations "Begin baseline motor function assessment"
        else
          let recommendations :=
            append recommendations "Schedule follow-up evaluation for confirmation" in
          let recommendations :=
            append recommendations "Monitor for symptom progression" in
          append recommendations "Consider additional diagnostic testing" in
      let recommendations :=
        if has_key "datscan" individual_results
        then append recommendations "DATScan results support clinical diagnosis"
        else recommendations in
      let recommendations :=
        if has_key "voice" individual_results
        then append recommendations "Voice changes warrant speech therapy evaluation"
        else recommendations in
      if has_key "spiral" individual_results
      then append recommendations "Motor assessment indicates need for physical therapy"
      else recommendations
    else
      if gtb confidence (lit 0.8) then
        let recommendations :=
          append recommendations "Continue routine health monitoring" in
        append recommendations "No immediate follow-up required"
      else
        let recommendations :=
          append recommendations "Consider repeat testing in 6-12 months" in
        append recommendations "Monitor for new symptoms" in
  let recommendations :=
    append recommendations "Maintain regular exercise routine" in
  append recommendations "Schedule annual neurological check-up".

(** *** The three segments of the list, named *)

Definition tier_items (fusion_result : verdict F) : list string :=
  if (fusion_prediction fusion_result =? 1)%Z then
    if gtb (fusion_confidence fusion_result) (lit 0.7)
    then ["Schedule comprehensive neurological evaluation";
          "Consider referral to movement disorder specialist";
          "Begin baseline motor function assessment"]
    else ["Schedule follow-up evaluation for confirmation";
          "Monitor for symptom progression";
          "Consider additional diagnostic testing"]
  else
    if gtb (fusion_confidence fusion_result) (lit 0.8)
    then ["Continue routine health monitoring";
          "No immediate follow-up required"]
    else ["Consider repeat testing in 6-12 months";
          "Monitor for new symptoms"].

Definition modality_item (modality : string) : string :=
  if String.eqb modality "datscan" then "DATScan results support clinical diagnosis"
  else if String.eqb modality "voice" then "Voice changes warrant speech therapy evaluation"
  else "Motor assessment indicates need for physical therapy".

(** One item per modality of [order] that is a key of [individual_results]. *)
Definition modality_items (order : list string)
    (individual_results : results F) : list string :=
  map modality_item
      (filter (fun m => has_key m individual_results) order).

Definition general_items : list string :=
  ["Maintain regular exercise routine";
   "Schedule annual neurological check-up"].

(** The list as the specification words it: tier items, then one item per
    contributing modality in the order voice, datscan, spiral whatever the
    verdict, then the general tail. *)
Definition spec_recommendations (fusion_result : verdict F)
    (individual_results : results F) : list string :=
  tier_items fusion_result
  ++ modality_items ["voice"; "datscan"; "spiral"] individual_results
  ++ general_items.
End Narrator.

(** ** [analyze_multimodal] and the endpoint [multimodal_analysis] *)

(** A raised exception; [str e] is its message. *)
Inductive exn : Type := Exception (message : string).

Definition str (e : exn) : string :=
  match e with Exception message => message end.

(** A call that returns a value or raises. *)
Definition py (A : Type) : Type := (exn + A)%type.

(** [analysis_data], as far as [analyze_multimodal] reads it. *)
Record analysis_data (UploadFile F : Type) := mk_analysis_data {
  voice_file : option UploadFile;
  datscan_file : option UploadFile;
  spiral_data : option string;
  drawing_time : option F
}.
Arguments mk_analysis_data {UploadFile F}.
Arguments voice_file {UploadFile F}.
Arguments datscan_file {UploadFile F}.
Arguments spiral_data {UploadFile F}.
Arguments drawing_time {UploadFile F}.

(** What the three guarded blocks build up. *)
Record collected (F : Type) := mk_collected {
  individual_results : results F;
  models_used : list string;
  errors : list string
}.
Arguments mk_collected {F}.
Arguments individual_results {F}.
Arguments models_used {F}.
Arguments errors {F}.

(** The response dict.  Its five [fusion_*] entries are the fields of
    [fusion]; the constant [fusion_weights], the clinical summary text and
    the clock readings are left out. *)
Record response (F : Type) := mk_response {
  fusion : verdict F;
  response_individual_results : results F;
  response_models_used : list string;
  recommendations : list string;
  response_errors : option (list string)
}.
Arguments mk_response {F}.
Arguments fusion {F}.
Arguments response_individual_results {F}.
Arguments response_models_used {F}.
Arguments recommendations {F}.
Arguments response_errors {F}.

(** What the endpoint hands to the web framework. *)
Inductive http_result (F : Type) : Type :=
| Returned (body : response F)
| HTTPException (status_code : Z) (detail : string).
Arguments Returned {F}.
Arguments HTTPException {F}.

Section Orchestrator.
Context {UploadFile F : Type} `{PyNum F}.

(** The three services, [None] when [_initialize_services] left the
    attribute unset.  Each is an opaque predictor that returns a result
    dict or raises; the voice and DATScan ones include the temporary-file
    handling around the call. *)
Variable voice_analyzer : option (UploadFile -> py (result F)).
Variable datscan_service : option (UploadFile -> py (result F)).
Variable spiral_service : option (string -> option F -> py (result F)).

Definition _analyze_voice (file : UploadFile) : py (result F) :=
  match voice_analyzer with
  | None => inl (Exception "Voice analyzer not initialized")
  | Some analyze_voice => analyze_voice file
  end.

Definition _analyze_datscan (file : UploadFile) : py (result F) :=
  match datscan_service with
  | None => inl (Exception "DATScan service not initialized")
  | Some analyze_datscan => analyze_datscan file
  end.

Definition _analyze_spiral (data : string) (time : option F) : py (result F) :=
  match spiral_service with
  | None => inl (Exception "Spiral service not initialized")
  | Some analyze_spiral => analyze_spiral data time
  end.

(** Truth value of [analysis_data.get('spiral_data')]: a string that is
    present and not empty. *)
Definition provided_spiral (d : analysis_data UploadFile F) : option string :=
  match spiral_data d with
  | Some "" => None
  | other => other
  end.

(** One [try: ... except Exception as e: ...] block: on success the result
    is stored under [model_type] and the name appended to [models_used];
    on failure only the message is appended to [errors]. *)
Definition guarded (model_type failure : string) (call : py (result F))
    (c : collected F) : collected F :=
  match call with
  | inr r =>
      mk_collected (individual_results c ++ [(model_type, r)])
                   (models_used c ++ [model_type])
                   (errors c)
  | inl e =>
      mk_collected (individual_results c) (models_used c)
                   (errors c ++ [(failure ++ str e)%string])
  end.

Definition collect (d : analysis_data UploadFile F) : collected F :=
  let c := mk_collected [] [] [] in
  let c :=
    match voice_file d with
    | Some file => guarded "voice" "Voice analysis failed: " (_analyze_voice file) c
    | None => c
    end in
  let c :=
    match datscan_file d with
    | Some file =>
        guarded "datscan" "DATScan analysis failed: " (_analyze_datscan file) c
    | None => c
    end in
  match provided_spiral d with
  | Some data =>
      guarded "spiral" "Spiral analysis failed: "
              (_analyze_spiral data (drawing_time d)) c
  | None => c
  end.

Definition analyze_multimodal (d : analysis_data UploadFile F) : py (response F) :=
  let c := collect d in
  let fusion_result := _perform_late_fusion (individual_results c) in
  let recommendations :=
    _generate_recommendations fusion_result (individual_results c) in
  inr (mk_response fusion_result (individual_results c) (models_used c)
                   recommendations
                   (match errors c with [] => None | es => Some es end)).

(** The body of the endpoint: no check of its arguments precedes the call
    of the service. *)
Definition multimodal_analysis (voice_file datscan_file : option UploadFile)
    (spiral_data : option string) : http_result F :=
  match analyze_multimodal
          (mk_analysis_data voice_file datscan_file spiral_data None) with
  | inr result => Returned result
  | inl e => HTTPException 500 ("Multimodal analysis failed: " ++ str e)%string
  end.
End Orchestrator.

(** ** Well-formed results, in the words of the specification *)

(** The three numeric fields are present, both probabilities and the
    confidence lie in [0,1], and the probabilities sum to 1. *)
Definition valid_result (r : result Q) : Prop :=
  exists p h c,
    r = mk_result (Some p) (Some h) (Some c) /\
    0 <= p <= 1 /\ 0 <= h <= 1 /\ p + h == 1 /\ 0 <= c <= 1.


(** The same conditions, decided on binary64 values. *)
Definition valid_result_float (r : result float) : bool :=
  match probability_pd r, probability_healthy r, confidence r with
  | Some p, Some h, Some c =>
      PrimFloat.leb 0 p && PrimFloat.leb p 1 &&
      PrimFloat.leb 0 h && PrimFloat.leb h 1 &&
      PrimFloat.eqb (p + h) 1 &&
      PrimFloat.leb 0 c && PrimFloat.leb c 1
  | _, _, _ => false
  end.

(** Field-by-field equality of two verdicts over the rationals. *)
Definition verdict_eq (v1 v2 : verdict Q) : Prop :=
  fusion_prediction v1 = fusion_prediction v2 /\
  fusion_prediction_label v1 = fusion_prediction_label v2 /\
  fusion_confidence v1 == fusion_confidence v2 /\
  fusion_probability_pd v1 == fusion_probability_pd v2 /\
  fusion_probability_healthy v1 == fusion_probability_healthy v2.

(** Replace the confidence entry of a result. *)
Definition with_confidence {F : Type} (r : result F) (c : F) : result F :=
  mk_result (probability_pd r) (probability_healthy r) (Some c).

(** An item that adds nothing to [total_weight]: it is skipped, or its
    adjusted weight compares equal to zero. *)
Definition weightless {F : Type} `{PyNum F} (item : string * result F) : Prop :=
  match probability_pd (snd item) with
  | Some _ => eqb (adjusted_weight (fst item) (snd item)) (lit 0) = true
  | None => True
  end.

(** The entries of a result that [_perform_late_fusion] reads. *)
Definition read_entries {F : Type} (item : string * result F)
  : string * option F * option F :=
  (fst item, probability_pd (snd item), confidence (snd item)).

(** ** The accumulated sums, over the rationals *)

(** The sum of the adjusted weights of the items that are not skipped. *)
Fixpoint weight_sum (l : results Q) : Q :=
  match l with
  | [] => 0
  | (k, r) :: l' =>
      match probability_pd r with
      | Some _ => adjusted_weight k r + weight_sum l'
      | None => weight_sum l'
      end
  end.

(** The sum of [probability_pd * adjusted weight]. *)
Fixpoint weighted_sum (l : results Q) : Q :=
  match l with
  | [] => 0
  | (k, r) :: l' =>
      match probability_pd r with
      | Some p => p * adjusted_weight k r + weighted_sum l'
      | None => weighted_sum l'
      end
  end.

(** The sum of the confidences, and how many there are. *)
Fixpoint confidence_sum (l : results Q) : Q :=
  match l with
  | [] => 0
  | (k, r) :: l' =>
      match probability_pd r with
      | Some _ => confidence_of r + confidence_sum l'
      | None => confidence_sum l'
      end
  end.

Fixpoint contributing (l : results Q) : nat :=
  match l with
  | [] => O
  | (k, r) :: l' =>
      match probability_pd r with
      | Some _ => S (contributing l')
      | None => contributing l'
      end
  end.

(** ** Sample inputs on binary64 *)

Module Samples.
Local Open Scope float_scope.

Definition res (p h c : float) : result float :=
  mk_result (Some p) (Some h) (Some c).


(** Three well-formed results whose fused value depends on their order. *)
Definition voice_A : string * result float := ("voice", res 0 1 0.1).
Definition datscan_B : string * result float := ("datscan", res 0.3 0.7 0.5).
Definition spiral_C : string * result float := ("spiral", res 0.9 0.1 0.5).

(** A confident voice result next to a DATScan result. *)
Definition voice_pd (c : float) : string * result float := ("voice", res 1 0 c).
Definition datscan_low : string * result float := ("datscan", res 0.1 0.9 1).

(** Voice and DATScan both pointing at the disease; voice alone healthy. *)
Definition both_pd : results float :=
  [("voice", res 0.8 0.2 0.9); ("datscan", res 0.9 0.1 0.9)].
Definition voice_healthy : results float := [("voice", res 0.2 0.8 0.9)].

(** Probabilities that sum to 1.8 and a confidence of 2.0. *)
Definition malformed : results float := [("voice", res 0.9 0.9 2)].

(** Predictors for a run of the endpoint: voice raises, DATScan answers. *)
Definition voice_fails : option (unit -> py (result float)) :=
  Some (fun _ => inl (Exception "unreadable audio")).
Definition datscan_answers : option (unit -> py (result float)) :=
  Some (fun _ => inr (res 0.9 0.1 0.9)).
Definition no_spiral : option (string -> option float -> py (result float)) :=
  None.
End Samples.

(** * The rest of the service *)

From Stdlib Require Import Sorted.

(** ** Library functions the predictors call *)

Section Library.
Context {F : Type} `{PyNum F}.

(** [x != x]: true of NaN only. *)
Definition isnan (x : F) : bool := negb (eqb x x).

(** Truth value of a float in [if x:] and [x or y]: false for zero. *)
Definition truthy (x : F) : bool := negb (eqb x (lit 0)).

(** [np.clip(x, lo, hi)] on a scalar, as numpy defines it:
    [minimum(maximum(x, lo), hi)], a NaN passed through. *)
Definition np_clip (x lo hi : F) : F :=
  let m := if isnan x then x else if gtb x lo then x else lo in
  if isnan m then m else if gtb hi m then m else hi.

(** Python's [max] over a sequence of two: the second element replaces the
    first only when it compares greater. *)
Definition max2 (a b : F) : F := if gtb b a then b else a.

(** [key in d] for any dict. *)
Definition dict_has {V : Type} (key : string) (d : list (string * V)) : bool :=
  existsb (fun item => String.eqb (fst item) key) d.
End Library.

(** [s.split(sep)] for a one-character separator: never empty. *)
Fixpoint split (sep : ascii) (s : string) : list string :=
  match s with
  | EmptyString => [EmptyString]
  | String c s' =>
      if Ascii.eqb c sep then EmptyString :: split sep s'
      else match split sep s' with
           | [] => [String c EmptyString]
           | piece :: pieces => String c piece :: pieces
           end
  end.

(** The text after the data-URL header:
    [if s.startswith('data:image'): s = s.split(',')[1]].  A header with no
    comma after it makes the index raise. *)
Definition strip_data_url (spiral_data : string) : py string :=
  if String.prefix "data:image" spiral_data then
    match nth_error (split ","%char spiral_data) 1 with
    | Some payload => inr payload
    | None => inl (Exception "list index out of range")
    end
  else inr spiral_data.

(** The five entries every predictor's [_mock_prediction] returns. *)
Record prediction_result (F : Type) := mk_prediction_result {
  prediction : Z;
  prediction_label : string;
  predicted_confidence : F;
  predicted_probability_pd : F;
  predicted_probability_healthy : F
}.
Arguments mk_prediction_result {F}.
Arguments prediction {F}.
Arguments prediction_label {F}.
Arguments predicted_confidence {F}.
Arguments predicted_probability_pd {F}.
Arguments predicted_probability_healthy {F}.

(** The same entries as [_perform_late_fusion] reads them out of the
    result dict, which holds them under the same keys. *)
Definition as_result {F : Type} (r : prediction_result F) : result F :=
  mk_result (Some (predicted_probability_pd r))
            (Some (predicted_probability_healthy r))
            (Some (predicted_confidence r)).

(** ** [_generate_clinical_summary] *)

Section ClinicalSummary.
Context {F : Type} `{PyNum F}.

(** Python's [format(x, '.1%')]. *)
Variable format_percent : F -> string.

Definition _generate_clinical_summary (fusion_result : verdict F)
    (individual_results : results F) : string :=
  let prediction := fusion_prediction fusion_result in
  let confidence := fusion_confidence fusion_result in
  let probability_pd := fusion_probability_pd fusion_result in
  if (prediction =? 1)%Z then
    let severity :=
      if gtb confidence (lit 0.8) then "high confidence"
      else if gtb confidence (lit 0.6) then "moderate confidence"
      else "low confidence" in
    let summary :=
      ("Multi-modal analysis indicates " ++ severity
       ++ " for Parkinson's Disease ")%string in
    let summary :=
      (summary ++ "(probability: " ++ format_percent probability_pd ++ "). ")%string in
    let summary :=
      if has_key "datscan" individual_results
      then (summary ++ "DATScan imaging shows reduced dopamine transporter activity. ")%string
      else summary in
    let summary :=
      if has_key "voice" individual_results
      then (summary ++ "Voice analysis reveals characteristic vocal changes. ")%string
      else summary in
    if has_key "spiral" individual_results
    then (summary ++ "Spiral drawing demonstrates motor control deficits. ")%string
    else summary
  else
    let summary :=
      if gtb confidence (lit 0.8) then
        let summary :=
          "Multi-modal analysis shows no significant indicators of Parkinson's Disease " in
        (summary ++ "(confidence: " ++ format_percent confidence ++ "). ")%string
      else
        "Multi-modal analysis suggests healthy status, though with limited confidence. " in
    (summary ++ "All analyzed modalities are within normal ranges.")%string.
End ClinicalSummary.

(** ** [SpiralAnalysisService] *)

Module Spiral.

(** One entry of [key_features]. *)
Record key_feature (F : Type) := mk_key_feature {
  feature_name : string;
  importance_score : F;
  description : string;
  category : string;
  value : F
}.
Arguments mk_key_feature {F}.
Arguments feature_name {F}.
Arguments importance_score {F}.
Arguments description {F}.
Arguments category {F}.
Arguments value {F}.

Record drawing_metrics (F : Type) := mk_drawing_metrics {
  total_drawing_time : F;
  line_smoothness : F;
  tremor_amplitude : F;
  spiral_consistency : F
}.
Arguments mk_drawing_metrics {F}.
Arguments total_drawing_time {F}.
Arguments line_smoothness {F}.
Arguments tremor_amplitude {F}.
Arguments spiral_consistency {F}.

(** The dict [analyze_spiral] returns. *)
Record analysis (F : Type) := mk_analysis {
  prediction_entries : prediction_result F;
  model_type : string;
  processing_time : F;
  clinical_notes : string;
  key_features : list (key_feature F);
  metrics : drawing_metrics F
}.
Arguments mk_analysis {F}.
Arguments prediction_entries {F}.
Arguments model_type {F}.
Arguments processing_time {F}.
Arguments clinical_notes {F}.
Arguments key_features {F}.
Arguments metrics {F}.

Section Service.
Context {F Image : Type} `{PyNum F}.

(** [np.std] of a list of values and Python's [format(x, '.1%')]. *)
Variable np_std : list F -> F.
Variable format_percent : F -> string.

(** [base64.b64decode] followed by PIL's [Image.open] and the conversion
    to RGB, which may raise; and the feature extraction seeded by the image
    bytes, which catches its own exceptions and then returns
    [default_features]. *)
Variable open_image : string -> py Image.
Variable _extract_spiral_features : Image -> option F -> list (string * F).

(** Any exception inside is raised again as
    [Exception(f"Failed to decode image: {e}")]. *)
Definition _decode_image (spiral_data : string) : py Image :=
  let attempt :=
    match strip_data_url spiral_data with
    | inl e => inl e
    | inr payload => open_image payload
    end in
  match attempt with
  | inl e => inl (Exception ("Failed to decode image: " ++ str e)%string)
  | inr image => inr image
  end.

Definition feature_names : list string :=
  ["tremor_amplitude"; "tremor_frequency"; "drawing_speed";
   "spiral_tightness"; "line_smoothness"; "pressure_variation";
   "drawing_time"; "pen_lift_count"; "spiral_deviation";
   "stroke_length_mean"; "stroke_length_std"; "angular_velocity";
   "curvature_variation"; "spiral_radius_mean"; "spiral_radius_std";
   "drawing_consistency"; "motor_control_score"; "tremor_severity";
   "coordination_index"; "fluidity_measure"].

(** What [_extract_spiral_features] returns when extraction fails:
    [{name: 0.5 for name in self.feature_names}]. *)
Definition default_features : list (string * F) :=
  map (fun name => (name, lit 0.5)) feature_names.

Definition time_factor (drawing_time : option F) : F :=
  match drawing_time with
  | Some t =>
      if truthy t then
        if gtb (lit 15) t then lit 0.8
        else if gtb t (lit 60) then lit 0.7
        else lit 1.0
      else lit 1.0
  | None => lit 1.0
  end.

(** The weighted score before clamping. *)
Definition raw_probability (features : list (string * F))
    (drawing_time : option F) : F :=
  let motor_score := dict_get features "motor_control_score" (lit 0.5) in
  let tremor_score := dict_get features "tremor_severity" (lit 0.5) in
  let consistency_score := dict_get features "drawing_consistency" (lit 0.5) in
  add (add (add (mul (sub (lit 1.0) motor_score) (lit 0.4))
                (mul tremor_score (lit 0.3)))
           (mul (sub (lit 1.0) consistency_score) (lit 0.2)))
      (mul (sub (lit 1.0) (time_factor drawing_time)) (lit 0.1)).

(** The body of the [try] block; on values that are numbers nothing in it
    raises, so the [except] branch (a fixed "Healthy" dict) is not
    reached. *)
Definition _mock_prediction (features : list (string * F))
    (drawing_time : option F) : prediction_result F :=
  let pd_probability :=
    np_clip (raw_probability features drawing_time) (lit 0.1) (lit 0.9) in
  let healthy_probability := sub (lit 1.0) pd_probability in
  let prediction := if gtb pd_probability (lit 0.5) then 1%Z else 0%Z in
  let prediction_label :=
    if (prediction =? 1)%Z then "Parkinson's Disease" else "Healthy" in
  let feature_std := np_std (map snd features) in
  let confidence :=
    add (lit 0.6) (mul (sub (lit 1.0) feature_std) (lit 0.3)) in
  let confidence := np_clip confidence (lit 0.3) (lit 0.95) in
  mk_prediction_result prediction prediction_label confidence
                       pd_probability healthy_probability.

Definition descriptions : list (string * string) :=
  [("tremor_amplitude", "Amplitude of hand tremor during drawing");
   ("motor_control_score", "Overall motor control and coordination");
   ("drawing_consistency", "Consistency of spiral shape and spacing");
   ("line_smoothness", "Smoothness of drawn lines");
   ("tremor_severity", "Severity of tremor patterns");
   ("spiral_deviation", "Deviation from ideal spiral shape");
   ("pressure_variation", "Variation in pen pressure");
   ("coordination_index", "Hand-eye coordination quality")].

Definition _get_feature_description (feature_name : string) : string :=
  dict_get descriptions feature_name ("Feature: " ++ feature_name)%string.

Definition categories : list (string * string) :=
  [("tremor_amplitude", "motor");
   ("motor_control_score", "motor");
   ("drawing_consistency", "quality");
   ("line_smoothness", "quality");
   ("tremor_severity", "motor");
   ("spiral_deviation", "spatial");
   ("pressure_variation", "motor");
   ("coordination_index", "motor")].

Definition _get_feature_category (feature_name : string) : string :=
  dict_get categories feature_name "general".

Definition feature_importance : list (string * F) :=
  [("tremor_amplitude", lit 0.95);
   ("motor_control_score", lit 0.92);
   ("drawing_consistency", lit 0.88);
   ("line_smoothness", lit 0.85);
   ("tremor_severity", lit 0.82);
   ("spiral_deviation", lit 0.78);
   ("pressure_variation", lit 0.75);
   ("coordination_index", lit 0.72)].

(** The loop over [feature_importance], appending one entry per name that
    is a key of [features]. *)
Definition key_features_step (features : list (string * F))
    (acc : list (key_feature F)) (item : string * F) : list (key_feature F) :=
  let (name, importance) := item in
  if dict_has name features
  then acc ++ [mk_key_feature name importance
                 (_get_feature_description name)
                 (_get_feature_category name)
                 (dict_get features name (lit 0))]
  else acc.

Definition _get_key_features (features : list (string * F))
  : list (key_feature F) :=
  fold_left (key_features_step features) feature_importance [].

Definition _generate_clinical_notes (prediction_result : prediction_result F)
    (features : list (string * F)) : string :=
  let prediction := prediction prediction_result in
  let confidence := predicted_confidence prediction_result in
  let probability_pd := predicted_probability_pd prediction_result in
  if (prediction =? 1)%Z then
    let severity :=
      if gtb confidence (lit 0.8) then "high confidence"
      else if gtb confidence (lit 0.6) then "moderate confidence"
      else "low confidence" in
    let notes :=
      ("Spiral drawing analysis shows " ++ severity
       ++ " for motor control deficits ")%string in
    let notes :=
      (notes ++ "(probability: " ++ format_percent probability_pd ++ "). ")%string in
    let notes :=
      if gtb (dict_get features "tremor_amplitude" (lit 0)) (lit 0.7)
      then (notes ++ "Significant tremor amplitude detected during drawing. ")%string
      else notes in
    let notes :=
      if gtb (lit 0.4) (dict_get features "motor_control_score" (lit 0))
      then (notes ++ "Reduced motor control and coordination observed. ")%string
      else notes in
    if gtb (lit 0.5) (dict_get features "drawing_consistency" (lit 0))
    then (notes ++ "Inconsistent spiral shape indicates motor planning issues. ")%string
    else notes
  else
    if gtb confidence (lit 0.8) then
      let notes := "Spiral drawing analysis shows normal motor control " in
      let notes :=
        (notes ++ "(confidence: " ++ format_percent confidence ++ "). ")%string in
      (notes ++ "Drawing patterns are within normal ranges.")%string
    else
      let notes := "Spiral drawing analysis suggests normal motor function, " in
      (notes ++ "though with limited confidence. Clinical correlation recommended.")%string.

(** [self.model] is ["mock_spiral_model"] after [_load_model], [None] had
    loading failed. *)
Variable model : option string.

Definition analyze_spiral (spiral_data : string) (drawing_time : option F)
  : py (analysis F) :=
  match model with
  | None | Some "" => inl (Exception "Spiral model not loaded")
  | Some _ =>
      match _decode_image spiral_data with
      | inl e => inl e
      | inr image =>
          let features := _extract_spiral_features image drawing_time in
          let prediction_result := _mock_prediction features drawing_time in
          inr (mk_analysis
                 prediction_result
                 "Spiral Analysis"
                 (lit 1.8)
                 (_generate_clinical_notes prediction_result features)
                 (_get_key_features features)
                 (mk_drawing_metrics
                    (match drawing_time with
                     | Some t => if truthy t then t else lit 0.0
                     | None => lit 0.0
                     end)
                    (dict_get features "line_smoothness" (lit 0.0))
                    (dict_get features "tremor_amplitude" (lit 0.0))
                    (dict_get features "drawing_consistency" (lit 0.0))))
      end
  end.

End Service.
End Spiral.

(** ** [DATScanAnalysisService] *)

Module Datscan.

Record key_feature := mk_key_feature {
  feature_name : string;
  importance_score : Q;
  description : string;
  category : string
}.

(** The dict [analyze_datscan] returns. *)
Record analysis (F : Type) := mk_analysis {
  prediction_entries : prediction_result F;
  model_type : string;
  processing_time : F;
  clinical_notes : string;
  key_features : list key_feature
}.
Arguments mk_analysis {F}.
Arguments prediction_entries {F}.
Arguments model_type {F}.
Arguments processing_time {F}.
Arguments clinical_notes {F}.
Arguments key_features {F}.

Section Service.
Context {F Image ndarray : Type} `{PyNum F}.

(** [np.mean] and [np.std] of the feature vector, and Python's
    [format(x, '.1%')]. *)
Variable np_mean : ndarray -> F.
Variable np_std : ndarray -> F.
Variable format_percent : F -> string.

(** PIL's open, convert and resize, whose exceptions [_load_image] raises
    again as [Exception(f"Failed to load image: {e}")]; and the feature
    vector, which the source draws with [np.random.rand(512)]. *)
Variable _load_image : string -> py Image.
Variable _extract_features : Image -> ndarray.

(** The call that reseeds numpy's generator is left out: it changes
    nothing the function returns. *)
Definition _mock_prediction (features : ndarray) : prediction_result F :=
  let base_probability := lit 0.3 in
  let feature_influence := mul (np_mean features) (lit 0.4) in
  let probability_pd :=
    np_clip (add base_probability feature_influence) (lit 0.1) (lit 0.9) in
  let probability_healthy := sub (lit 1.0) probability_pd in
  let prediction := if gtb probability_pd (lit 0.5) then 1%Z else 0%Z in
  let prediction_label :=
    if (prediction =? 1)%Z then "Parkinson's Disease" else "Healthy" in
  let confidence := add (lit 0.6) (mul (np_std features) (lit 0.3)) in
  let confidence := np_clip confidence (lit 0.3) (lit 0.95) in
  mk_prediction_result prediction prediction_label confidence
                       probability_pd probability_healthy.

Definition _generate_clinical_notes (prediction_result : prediction_result F)
  : string :=
  let prediction := prediction prediction_result in
  let confidence := predicted_confidence prediction_result in
  let probability_pd := predicted_probability_pd prediction_result in
  if (prediction =? 1)%Z then
    let severity :=
      if gtb confidence (lit 0.8) then "high confidence"
      else if gtb confidence (lit 0.6) then "moderate confidence"
      else "low confidence" in
    let notes :=
      ("DATScan analysis shows " ++ severity
       ++ " for reduced dopamine transporter activity ")%string in
    let notes :=
      (notes ++ "in the striatum (probability: "
       ++ format_percent probability_pd ++ "). ")%string in
    if gtb probability_pd (lit 0.7) then
      (notes ++ "Significant reduction in striatal uptake consistent with PD diagnosis. ")%string
    else if gtb probability_pd (lit 0.5) then
      (notes ++ "Moderate reduction in striatal uptake suggestive of early PD. ")%string
    else
      (notes ++ "Mild reduction in striatal uptake requiring clinical correlation. ")%string
  else
    if gtb confidence (lit 0.8) then
      let notes := "DATScan analysis shows normal dopamine transporter activity " in
      let notes :=
        (notes ++ "in the striatum (confidence: "
         ++ format_percent confidence ++ "). ")%string in
      (notes ++ "No significant abnormalities detected.")%string
    else
      let notes := "DATScan analysis suggests normal dopamine transporter activity, " in
      (notes ++ "though with limited confidence. Clinical correlation recommended.")%string.

Definition fixed_key_features : list key_feature :=
  [mk_key_feature "dopamine_activity" 0.95
                  "Dopamine transporter binding in striatum" "neurotransmitter";
   mk_key_feature "striatal_asymmetry" 0.87
                  "Left-right asymmetry in striatal uptake" "spatial";
   mk_key_feature "background_ratio" 0.82
                  "Striatal to background uptake ratio" "quantitative"].

Variable model : option string.

Definition analyze_datscan (image_path : string) : py (analysis F) :=
  match model with
  | None | Some "" => inl (Exception "DATScan model not loaded")
  | Some _ =>
      match _load_image image_path with
      | inl e => inl e
      | inr image =>
          let features := _extract_features image in
          let prediction_result := _mock_prediction features in
          inr (mk_analysis prediction_result "DATScan Analysis" (lit 2.5)
                           (_generate_clinical_notes prediction_result)
                           fixed_key_features)
      end
  end.
End Service.
End Datscan.

(** ** [VoiceAnalyzer] *)

Module Voice.

(** [FeatureImportance] *)
Record feature_importance (F : Type) := mk_feature_importance {
  feature_name : string;
  importance_score : F;
  description : string;
  category : string
}.
Arguments mk_feature_importance {F}.
Arguments feature_name {F}.
Arguments importance_score {F}.
Arguments description {F}.
Arguments category {F}.

(** [ClinicalInterpretation] *)
Record clinical_interpretation := mk_clinical_interpretation {
  overall_assessment : string;
  key_findings : list string;
  recommendations : list string;
  risk_level : string;
  confidence_level : string
}.

(** [np.nan_to_num(x, nan=0.0, posinf=0.0, neginf=0.0)] on one entry. *)
Definition nan_to_num (x : float) : float :=
  if PrimFloat.is_nan x then 0%float
  else if PrimFloat.is_infinity x then 0%float
  else x.

(** The loop over the expected names, then [nan_to_num]; the result is
    the single row of the array handed to the model. *)
Definition _prepare_features_for_prediction (expected_features : list string)
    (features : list (string * float)) : list float :=
  let feature_vector :=
    fold_left
      (fun feature_vector feature_name =>
         if dict_has feature_name features
         then feature_vector ++ [dict_get features feature_name 0%float]
         else feature_vector ++ [0%float])
      expected_features [] in
  map nan_to_num feature_vector.

(** [get_feature_descriptions] of the feature extractor. *)
Definition feature_descriptions : list (string * list (string * string)) :=
  [("pitch_features",
    [("pitch_mean", "Average fundamental frequency of the voice");
     ("pitch_std", "Variability in fundamental frequency");
     ("pitch_min", "Lowest fundamental frequency");
     ("pitch_max", "Highest fundamental frequency")]);
   ("jitter_features",
    [("jitter_percent", "Cycle-to-cycle variation in fundamental frequency (percentage)");
     ("jitter_abs", "Absolute jitter value in milliseconds")]);
   ("shimmer_features",
    [("shimmer_percent", "Cycle-to-cycle variation in amplitude (percentage)");
     ("shimmer_abs", "Absolute shimmer value in decibels")]);
   ("spectral_features",
    [("spectral_centroid_mean", "Average brightness of the voice");
     ("spectral_centroid_std", "Variability in voice brightness");
     ("spectral_rolloff_mean", "Frequency below which 85% of energy is contained");
     ("spectral_rolloff_std", "Variability in spectral rolloff")]);
   ("formant_features",
    [("formant_f1_mean", "Average first formant frequency");
     ("formant_f1_std", "Variability in first formant");
     ("formant_f2_mean", "Average second formant frequency");
     ("formant_f2_std", "Variability in second formant")]);
   ("mfcc_features",
    [("mfcc_1", "First Mel-frequency cepstral coefficient");
     ("mfcc_2", "Second Mel-frequency cepstral coefficient");
     ("mfcc_3", "Third Mel-frequency cepstral coefficient");
     ("mfcc_4", "Fourth Mel-frequency cepstral coefficient");
     ("mfcc_5", "Fifth Mel-frequency cepstral coefficient");
     ("mfcc_6", "Sixth Mel-frequency cepstral coefficient");
     ("mfcc_7", "Seventh Mel-frequency cepstral coefficient");
     ("mfcc_8", "Eighth Mel-frequency cepstral coefficient");
     ("mfcc_9", "Ninth Mel-frequency cepstral coefficient");
     ("mfcc_10", "Tenth Mel-frequency cepstral coefficient");
     ("mfcc_11", "Eleventh Mel-frequency cepstral coefficient");
     ("mfcc_12", "Twelfth Mel-frequency cepstral coefficient");
     ("mfcc_13", "Thirteenth Mel-frequency cepstral coefficient")]);
   ("other_features",
    [("hnr", "Harmonics-to-Noise Ratio - measure of voice quality");
     ("zero_crossing_rate_mean", "Average rate of sign changes in the signal");
     ("zero_crossing_rate_std", "Variability in zero crossing rate")])].

(** [s.replace(old, new)] for single characters. *)
Fixpoint replace_char (old new : ascii) (s : string) : string :=
  match s with
  | EmptyString => EmptyString
  | String c s' =>
      String (if Ascii.eqb c old then new else c) (replace_char old new s')
  end.

Definition is_upper (c : ascii) : bool :=
  (65 <=? nat_of_ascii c)%nat && (nat_of_ascii c <=? 90)%nat.
Definition is_lower (c : ascii) : bool :=
  (97 <=? nat_of_ascii c)%nat && (nat_of_ascii c <=? 122)%nat.
Definition to_upper (c : ascii) : ascii :=
  if is_lower c then ascii_of_nat (nat_of_ascii c - 32) else c.
Definition to_lower (c : ascii) : ascii :=
  if is_upper c then ascii_of_nat (nat_of_ascii c + 32) else c.

(** [s.title()] on ASCII text: a letter that follows a letter is lowered,
    any other letter is raised. *)
Fixpoint title_from (after_letter : bool) (s : string) : string :=
  match s with
  | EmptyString => EmptyString
  | String c s' =>
      let letter := is_upper c || is_lower c in
      String (if letter then (if after_letter then to_lower c else to_upper c)
              else c)
             (title_from letter s')
  end.

Definition title (s : string) : string := title_from false s.

(** The inner loop of [_get_top_features]: the first category that lists
    the feature gives its title and the description. *)
Fixpoint describe (tables : list (string * list (string * string)))
    (feature_name : string) : string * string :=
  match tables with
  | [] => ("Other", "Voice characteristic feature")
  | (cat_name, cat_features) :: tables' =>
      if dict_has feature_name cat_features
      then (title (replace_char "_"%char " "%char cat_name),
            dict_get cat_features feature_name "")
      else describe tables' feature_name
  end.

Section Analyzer.
Context {F : Type} `{PyNum F}.

(** [list.sort(key=lambda x: x.importance_score, reverse=True)] is a
    stable sort by descending score: an element stays behind those whose
    score is strictly greater and ahead of those that followed it. *)
Fixpoint insert_by_score (x : feature_importance F)
    (sorted : list (feature_importance F)) : list (feature_importance F) :=
  match sorted with
  | [] => [x]
  | y :: sorted' =>
      if gtb (importance_score y) (importance_score x)
      then y :: insert_by_score x sorted'
      else x :: y :: sorted'
  end.

Fixpoint sort_by_score (l : list (feature_importance F))
  : list (feature_importance F) :=
  match l with
  | [] => []
  | x :: l' => insert_by_score x (sort_by_score l')
  end.

Definition _get_top_features {V : Type} (features : list (string * V))
    (importance : list (string * F)) : list (feature_importance F) :=
  let feature_list :=
    fold_left
      (fun feature_list item =>
         let (feature_name, importance_score) := (item : string * F) in
         if dict_has feature_name features then
           let (category, description) :=
             describe feature_descriptions feature_name in
           feature_list
           ++ [mk_feature_importance feature_name importance_score
                                     description category]
         else feature_list)
      importance [] in
  firstn 10 (sort_by_score feature_list).

Definition _create_clinical_interpretation (prediction : Z) (confidence : F)
  : clinical_interpretation :=
  let '(risk_level, overall_assessment, key_findings, recommendations) :=
    if (prediction =? 1)%Z then
      let '(risk_level, overall_assessment) :=
        if gtb confidence (lit 0.8) then
          ("High",
           "The voice analysis suggests significant signs consistent with Parkinson's disease.")
        else if gtb confidence (lit 0.6) then
          ("Moderate",
           "The voice analysis indicates moderate signs that may be associated with Parkinson's disease.")
        else
          ("Low",
           "The voice analysis shows mild signs that could be related to Parkinson's disease.") in
      (risk_level, overall_assessment,
       ["Voice tremor and instability detected";
        "Reduced vocal control and precision";
        "Changes in pitch and amplitude patterns";
        "Potential dysarthria indicators present"],
       ["Consult with a neurologist for comprehensive evaluation";
        "Consider speech therapy for voice improvement";
        "Monitor voice changes over time";
        "Maintain regular medical follow-ups"])
    else
      let '(risk_level, overall_assessment) :=
        if gtb confidence (lit 0.8) then
          ("Very Low",
           "The voice analysis indicates healthy vocal characteristics with no concerning patterns.")
        else if gtb confidence (lit 0.6) then
          ("Low",
           "The voice analysis suggests generally healthy vocal patterns with minor variations.")
        else
          ("Low",
           "The voice analysis shows mostly healthy characteristics, though confidence is limited.") in
      (risk_level, overall_assessment,
       ["Stable pitch and amplitude patterns";
        "Normal vocal control and precision";
        "Consistent voice quality indicators";
        "No significant dysarthria signs detected"],
       ["Continue regular voice monitoring";
        "Maintain good vocal hygiene practices";
        "Consider annual voice assessments";
        "Report any sudden voice changes to healthcare providers"]) in
  let confidence_level :=
    if gtb confidence (lit 0.8) then "High"
    else if gtb confidence (lit 0.6) then "Medium"
    else "Low" in
  mk_clinical_interpretation overall_assessment key_findings recommendations
                             risk_level confidence_level.
End Analyzer.
End Voice.

(** ** The single-modality endpoints of [main.py] *)

(** What an endpoint hands to the web framework: the returned body, or
    the [HTTPException] it raised. *)
Inductive http (A : Type) : Type :=
| Http_ok (body : A)
| Http_error (status_code : Z) (detail : string).
Arguments Http_ok {A}.
Arguments Http_error {A}.

(** [s.isascii()]: file names are read as ASCII text, one character per
    code point; on other text [lower] and [upper] below are not Python's. *)
Definition isascii (s : string) : bool :=
  forallb (fun c => (nat_of_ascii c <? 128)%nat) (list_ascii_of_string s).

(** [s.lower()] on ASCII text. *)
Fixpoint lower (s : string) : string :=
  match s with
  | EmptyString => EmptyString
  | String c s' => String (Voice.to_lower c) (lower s')
  end.

(** [s.upper()] on ASCII text; no endpoint calls it, it serves to say that
    the extension checks ignore case. *)
Fixpoint upper (s : string) : string :=
  match s with
  | EmptyString => EmptyString
  | String c s' => String (Voice.to_upper c) (upper s')
  end.

(** [s.endswith(suffix)]: some tail of [s] is [suffix]. *)
Fixpoint endswith (s suffix : string) : bool :=
  String.eqb s suffix ||
  match s with
  | EmptyString => false
  | String _ s' => endswith s' suffix
  end.

(** [s.endswith(tuple)] *)
Definition endswith_any (s : string) (suffixes : list string) : bool :=
  existsb (endswith s) suffixes.

(** The body of [get_model_info] once both 503 checks are passed. *)
Record model_info := mk_model_info {
  features_count : nat;
  sample_features : list string
}.

Section Endpoints.
Context {F UploadFile A : Type} `{PyNum F}.

(** Writing the upload to a temporary file, which gives its path or
    raises. *)
Variable save_upload : UploadFile -> py string.

(** [datscan_service.analyze_datscan] and [voice_analyzer.analyze_voice]
    on a path, the global [voice_analyzer] being [None] until startup has
    succeeded; [spiral_service.analyze_spiral]. *)
Variable analyze_datscan : string -> py A.
Variable voice_analyzer : option (string -> py A).
Variable analyze_recorded_audio : string -> py A.
Variable analyze_spiral : string -> option F -> py A.

(** [filename] is [file.filename] of an upload that carries a name; the
    service's constructor catches its own exceptions. *)
Definition datscan_analysis (filename : string) (file : UploadFile) : http A :=
  if negb (endswith_any (lower filename) [".dcm"; ".nii"; ".jpg"; ".png"]) then
    Http_error 400
      "Unsupported file format. Please upload DICOM, NIfTI, JPG, or PNG files."
  else
    let outcome :=
      match save_upload file with
      | inl e => inl e
      | inr temp_file_path => analyze_datscan temp_file_path
      end in
    match outcome with
    | inr result => Http_ok result
    | inl e => Http_error 500 ("DATScan analysis failed: " ++ str e)%string
    end.

Definition predict_from_file (filename : string) (file : UploadFile) : http A :=
  match voice_analyzer with
  | None => Http_error 503 "Voice analyzer not initialized"
  | Some analyze_voice =>
      if negb (endswith_any (lower filename) [".wav"; ".mp3"; ".m4a"]) then
        Http_error 400
          "Unsupported file format. Please upload WAV, MP3, or M4A files."
      else
        let outcome :=
          match save_upload file with
          | inl e => inl e
          | inr temp_file_path => analyze_voice temp_file_path
          end in
        match outcome with
        | inr result => Http_ok result
        | inl e => Http_error 500 ("Analysis failed: " ++ str e)%string
        end
  end.

Definition predict_from_recording (audio_data : string) : http A :=
  match voice_analyzer with
  | None => Http_error 503 "Voice analyzer not initialized"
  | Some _ =>
      match analyze_recorded_audio audio_data with
      | inr result => Http_ok result
      | inl e => Http_error 500 ("Analysis failed: " ++ str e)%string
      end
  end.

(** The inner [try] turns every exception, the one of the missing comma
    as well as those of the service, into the same 400. *)
Definition spiral_analysis (spiral_data : string) (drawing_time : option F)
  : http A :=
  let outcome :=
    match strip_data_url spiral_data with
    | inl e => inl e
    | inr spiral_data => analyze_spiral spiral_data drawing_time
    end in
  match outcome with
  | inr result => Http_ok result
  | inl _ => Http_error 400 "Invalid spiral image data"
  end.

(** [model_loader.model_loaded] and [model_loader.feature_names]; the
    global [model_loader] is always an object, so its own 503 check never
    fires. *)
Definition get_model_info (model_loaded : bool)
    (loaded_names : option (list string)) : http model_info :=
  if negb model_loaded then Http_error 503 "Model not loaded"
  else
    let feature_names :=
      match loaded_names with
      | Some (name :: names) => name :: names
      | _ => []
      end in
    Http_ok (mk_model_info
               (List.length feature_names)
               (if (10 <? List.length feature_names)%nat
                then firstn 10 feature_names
                else feature_names)).
End Endpoints.

(** ** Order laws *)

(** What clamping relies on: [>] is asymmetric, and holds between numbers
    only.  Both readings of the arithmetic satisfy it. *)
Class PyOrderLaws (F : Type) `{PyNum F} : Prop := {
  gtb_asym : forall x y, gtb x y = true -> gtb y x = false;
  gtb_numbers : forall x y, gtb x y = true -> isnan x = false /\ isnan y = false
}.

(** * Properties *)

(** ** The two readings of the arithmetic obey the laws *)

Lemma Qgtb_lt (x y : Q) : Qgtb x y = true <-> y < x.
Proof.
  unfold Qgtb. rewrite negb_true_iff, <- not_true_iff_false, Qle_bool_iff.
  split; [apply Qnot_le_lt | apply Qlt_not_le].
Qed.

Lemma Qgtb_le (x y : Q) : Qgtb x y = false <-> x <= y.
Proof.
  unfold Qgtb. rewrite negb_false_iff. apply Qle_bool_iff.
Qed.

#[export] Instance PyNumLaws_Q : PyNumLaws Q.
Proof.
  constructor; cbn.
  - reflexivity.
  - intros x y E. apply Qeq_bool_iff in E. apply Qgtb_le. rewrite E. apply Qle_refl.
  - intros x y Ex Ey. apply Qeq_bool_iff in Ex, Ey. apply Qeq_bool_iff.
    rewrite Ex, Ey. reflexivity.
Qed.

Lemma SFcompare_Eq_not_Gt (a b : spec_float) :
  SFcompare a b = Some Eq -> SFcompare b a <> Some Lt.
Proof.
  destruct a as [sa|sa| |sa ma ea], b as [sb|sb| |sb mb eb]; cbn;
    try discriminate; try (destruct sa; discriminate);
    try (destruct sa, sb; discriminate).
  destruct sa, sb; try discriminate;
    rewrite (Z.compare_antisym ea eb);
    destruct (ea ?= eb)%Z; cbn; try discriminate;
    change PosDef.Pos.compare_cont with Pos.compare_cont;
    rewrite (ZC4 mb ma);
    destruct (Pos.compare_cont Eq ma mb); cbn; discriminate.
Qed.

Lemma float_eqb_zero (x : float) :
  PrimFloat.eqb x PrimFloat.zero = true ->
  exists s, Prim2SF x = S754_zero s.
Proof.
  rewrite FloatAxioms.eqb_spec. unfold SFeqb.
  change (Prim2SF PrimFloat.zero) with (S754_zero false).
  destruct (Prim2SF x) as [s|s| |s m e]; cbn; try discriminate.
  - intros _. now exists s.
  - destruct s; discriminate.
  - destruct s; discriminate.
Qed.

#[export] Instance PyNumLaws_float : PyNumLaws float.
Proof.
  constructor; cbn.
  - reflexivity.
  - intros x y E. rewrite FloatAxioms.eqb_spec in E. rewrite FloatAxioms.ltb_spec.
    unfold SFeqb in E. unfold SFltb.
    destruct (SFcompare (Prim2SF x) (Prim2SF y)) as [[]|] eqn:C; try discriminate.
    apply SFcompare_Eq_not_Gt in C.
    destruct (SFcompare (Prim2SF y) (Prim2SF x)) as [[]|]; congruence.
  - intros x y Ex Ey.
    change (float_lit 0) with PrimFloat.zero in *.
    apply float_eqb_zero in Ex, Ey. destruct Ex as [sx Ex], Ey as [sy Ey].
    rewrite FloatAxioms.eqb_spec, FloatAxioms.add_spec, Ex, Ey.
    destruct sx, sy; reflexivity.
Qed.

(** ** Fusion, for any arithmetic *)

Section FusionFacts.
Context {F : Type} `{PyNum F}.




Lemma zero_weight_fallback (l : results F) :
  gtb (total_weight (fusion_totals l)) (lit 0) = false ->
  _perform_late_fusion l = fallback_verdict.
Proof. intros E. unfold _perform_late_fusion. now rewrite E. Qed.

Lemma weightless_total `{!PyNumLaws F} (l : results F) (t : totals F) :
  Forall weightless l ->
  eqb (total_weight t) (lit 0) = true ->
  eqb (total_weight (fold_left fusion_step l t)) (lit 0) = true.
Proof.
  intros Hl. revert t.
  induction Hl as [|[k r] l Hx _ IH]; intros t Ht; cbn [fold_left].
  - exact Ht.
  - apply IH. unfold weightless in Hx. cbn [fst snd] in Hx.
    unfold fusion_step. destruct (probability_pd r); cbn [total_weight].
    + now apply add_zero_zero.
    + exact Ht.
Qed.
End FusionFacts.

(** C2. Whenever the total weight compares equal to zero, fusion returns
    the fallback verdict: prediction 0, label "Insufficient Data",
    confidence 0.0 and both probabilities 0.5.  The total weight is zero
    when no item adds weight: the result list is empty, or every item that
    is not skipped has an adjusted weight equal to zero.  The function
    returns; it has no raising path. *)
Theorem fusion_fallback_on_zero_weight :
  forall (F : Type) (N : PyNum F) (L : PyNumLaws F) (l : results F),
    (Forall weightless l ->
     eqb (total_weight (fusion_totals l)) (lit 0) = true) /\
    (eqb (total_weight (fusion_totals l)) (lit 0) = true ->
     _perform_late_fusion l
     = mk_verdict 0 "Insufficient Data" (lit 0) (lit 0.5) (lit 0.5)).
Proof.
  intros F N L l. split.
  - intros Hl. apply weightless_total; [exact Hl | apply eqb_zero_refl].
  - intros E. apply zero_weight_fallback. now apply eqb_not_gtb.
Qed.

(** On binary64: the empty dict, and one result whose confidence is 0.0. *)
Lemma fusion_fallback_on_zero_weight_witness :
  _perform_late_fusion (F:=float) []
  = mk_verdict 0 "Insufficient Data" 0%float 0.5%float 0.5%float /\
  _perform_late_fusion
    [("datscan", mk_result (Some 0.9%float) (Some 0.1%float) (Some 0%float))]
  = mk_verdict 0 "Insufficient Data" 0%float 0.5%float 0.5%float.
Proof.
  split.
  - destruct (fusion_fallback_on_zero_weight float _ _ []) as [Z Fb].
    apply Fb, Z. constructor.
  - destruct (fusion_fallback_on_zero_weight float _ _
                [("datscan",
                  mk_result (Some 0.9%float) (Some 0.1%float) (Some 0%float))])
      as [Z Fb].
    apply Fb, Z. constructor; [reflexivity | constructor].
Defined.

(** C7. With a positive total weight, the prediction is 1 exactly when the
    fused probability_pd is strictly greater than 0.5; a fused
    probability_pd equal to 0.5 gives prediction 0. *)
Theorem prediction_is_strict_threshold :
  forall (F : Type) (N : PyNum F) (L : PyNumLaws F) (l : results F),
    gtb (total_weight (fusion_totals l)) (lit 0) = true ->
    (fusion_prediction (_perform_late_fusion l) = 1%Z <->
     gtb (fusion_probability_pd (_perform_late_fusion l)) (lit 0.5) = true) /\
    (eqb (fusion_probability_pd (_perform_late_fusion l)) (lit 0.5) = true ->
     fusion_prediction (_perform_late_fusion l) = 0%Z).
Proof.
  intros F N L l Hw. unfold _perform_late_fusion. rewrite Hw.
  cbn [fusion_prediction fusion_probability_pd].
  set (pd := div _ _). split.
  - destruct (gtb pd (lit 0.5)); split; congruence.
  - intros E. now rewrite (eqb_not_gtb _ _ E).
Qed.

(** On binary64: voice (pd 0.0, confidence 1.0) and datscan (pd 1.0,
    confidence 0.4) weigh 0.2 each, and the fused probability is 0.5. *)
Lemma prediction_is_strict_threshold_witness :
  fusion_probability_pd
    (_perform_late_fusion (F:=float)
       [("voice", mk_result (Some 0%float) (Some 1%float) (Some 1%float));
        ("datscan", mk_result (Some 1%float) (Some 0%float) (Some 0.4%float))])
  = 0.5%float /\
  fusion_prediction
    (_perform_late_fusion (F:=float)
       [("voice", mk_result (Some 0%float) (Some 1%float) (Some 1%float));
        ("datscan", mk_result (Some 1%float) (Some 0%float) (Some 0.4%float))])
  = 0%Z.
Proof.
  split; [reflexivity|].
  refine (proj2 (prediction_is_strict_threshold float _ _
           [("voice", mk_result (Some 0%float) (Some 1%float) (Some 1%float));
            ("datscan", mk_result (Some 1%float) (Some 0%float) (Some 0.4%float))]
           _) _); reflexivity.
Defined.


(** ** Recommendations *)

(** C9, as the code has it.  The list is the confidence-tier items, then
    -- only when the prediction is 1 -- one fixed item per modality that is
    a key of [individual_results], in the order datscan, voice, spiral,
    then the two general items, which are always appended. *)
Theorem recommendations_segments :
  forall (F : Type) (N : PyNum F) (v : verdict F) (ir : results F),
    _generate_recommendations v ir
    = tier_items v
      ++ (if (fusion_prediction v =? 1)%Z
          then modality_items ["datscan"; "voice"; "spiral"] ir
          else [])
      ++ general_items.
Proof.
  intros F N v ir.
  unfold _generate_recommendations, tier_items, modality_items, general_items, append.
  destruct (fusion_prediction v =? 1)%Z.
  - cbn [filter map].
    destruct (gtb (fusion_confidence v) (lit 0.7)),
      (has_key "datscan" ir), (has_key "voice" ir), (has_key "spiral" ir);
      reflexivity.
  - destruct (gtb (fusion_confidence v) (lit 0.8)); reflexivity.
Qed.

(** C9, as the specification words it, fails twice: with voice and DATScan
    contributing to a positive verdict the DATScan item precedes the voice
    item, and with a healthy verdict no modality item is listed at all. *)
Lemma recommendations_order_counterexample :
  (_generate_recommendations (_perform_late_fusion Samples.both_pd) Samples.both_pd
   = ["Schedule comprehensive neurological evaluation";
      "Consider referral to movement disorder specialist";
      "Begin baseline motor function assessment";
      "DATScan results support clinical diagnosis";
      "Voice changes warrant speech therapy evaluation";
      "Maintain regular exercise routine";
      "Schedule annual neurological check-up"] /\
   spec_recommendations (_perform_late_fusion Samples.both_pd) Samples.both_pd
   = ["Schedule comprehensive neurological evaluation";
      "Consider referral to movement disorder specialist";
      "Begin baseline motor function assessment";
      "Voice changes warrant speech therapy evaluation";
      "DATScan results support clinical diagnosis";
      "Maintain regular exercise routine";
      "Schedule annual neurological check-up"]) /\
  (_generate_recommendations (_perform_late_fusion Samples.voice_healthy)
                             Samples.voice_healthy
   = ["Continue routine health monitoring";
      "No immediate follow-up required";
      "Maintain regular exercise routine";
      "Schedule annual neurological check-up"] /\
   spec_recommendations (_perform_late_fusion Samples.voice_healthy)
                        Samples.voice_healthy
   = ["Continue routine health monitoring";
      "No immediate follow-up required";
      "Voice changes warrant speech therapy evaluation";
      "Maintain regular exercise routine";
      "Schedule annual neurological check-up"]).
Proof. repeat split; vm_compute; reflexivity. Qed.

(** ** No validation inside fusion *)

(** C3, as the code has it.  Fusion checks nothing: whatever the values,
    an item with a probability_pd entry adds [base * confidence] to the
    weight, [pd * (base * confidence)] to the weighted sum and its
    confidence to the confidence total; probability_healthy is never read,
    so two inputs that agree on keys, probability_pd and confidence give
    the same verdict.  The function returns a verdict for every input. *)
Theorem fusion_takes_results_as_given :
  forall (F : Type) (N : PyNum F) (t : totals F) (k : string) (p c : F)
         (h : option F) (l l' : results F),
    fusion_step t (k, mk_result (Some p) h (Some c))
    = mk_totals (add (total_weighted_probability t) (mul p (mul (base_weight_of k) c)))
                (add (total_weight t) (mul (base_weight_of k) c))
                (add (total_confidence t) c)
                (S (available_models t)) /\
    (map read_entries l = map read_entries l' ->
     _perform_late_fusion l = _perform_late_fusion l').
Proof.
  intros F N t k p c h l l'. split; [reflexivity|].
  intros E. unfold _perform_late_fusion.
  assert (T : forall t0, fold_left fusion_step l t0 = fold_left fusion_step l' t0).
  { revert l' E. induction l as [|[k1 r1] l IH]; intros [|[k2 r2] l'] E t0;
      try discriminate; [reflexivity|].
    cbn [map] in E. injection E as Ek Ep Ec El. cbn [fst snd] in Ek, Ep, Ec.
    cbn [fold_left]. rewrite (IH l' El).
    f_equal. unfold fusion_step, adjusted_weight, confidence_of.
    now rewrite Ek, Ep, Ec. }
  unfold fusion_totals. now rewrite T.
Qed.

(** C3, as stated, fails: a result whose probabilities sum to 1.8 and whose
    confidence is 2.0 is fused like any other, and the verdict reports a
    confidence of 2.0. *)
Lemma fusion_accepts_malformed_counterexample :
  forallb (fun item => valid_result_float (snd item)) Samples.malformed = false /\
  _perform_late_fusion Samples.malformed
  = mk_verdict 1 "Parkinson's Disease" 2%float
               0x1.ccccccccccccdp-1%float 0x1.9999999999998p-4%float.
Proof. split; vm_compute; reflexivity. Qed.

(** ** The orchestrator *)

Lemma fusion_of_nothing {F : Type} `{PyNumLaws F} :
  _perform_late_fusion (F:=F) [] = fallback_verdict.
Proof.
  apply zero_weight_fallback. apply eqb_not_gtb. apply eqb_zero_refl.
Qed.

Ltac not_listed :=
  cbn; intuition discriminate.

(** C4, as the code has it.  The endpoint returns a response for every
    request.  With no modality input nothing is checked beforehand: the
    service runs, fusion receives the empty dict and the response carries
    the fallback verdict.  For each modality with an input, a predictor
    that raises is left out of [individual_results] and [models_used] and
    its message is appended to [errors]; a predictor that answers is
    stored; the verdict is the fusion of what was stored. *)
Theorem orchestrator_isolates_failures :
  forall (UploadFile F : Type) (N : PyNum F) (L : PyNumLaws F)
         (voice_analyzer datscan_service : option (UploadFile -> py (result F)))
         (spiral_service : option (string -> option F -> py (result F)))
         (voice_file datscan_file : option UploadFile)
         (spiral_data : option string),
  exists body,
    multimodal_analysis voice_analyzer datscan_service spiral_service
                        voice_file datscan_file spiral_data
    = Returned body /\
    fusion body = _perform_late_fusion (response_individual_results body) /\
    (voice_file = None -> datscan_file = None ->
     spiral_data = None \/ spiral_data = Some "" ->
     response_individual_results body = [] /\
     fusion body = fallback_verdict /\
     response_errors body = None) /\
    (forall file, voice_file = Some file ->
       match _analyze_voice voice_analyzer file with
       | inr r =>
           In ("voice", r) (response_individual_results body) /\
           In "voice" (response_models_used body)
       | inl e =>
           has_key "voice" (response_individual_results body) = false /\
           ~ In "voice" (response_models_used body) /\
           exists es, response_errors body = Some es /\
                      In ("Voice analysis failed: " ++ str e)%string es
       end) /\
    (forall file, datscan_file = Some file ->
       match _analyze_datscan datscan_service file with
       | inr r =>
           In ("datscan", r) (response_individual_results body) /\
           In "datscan" (response_models_used body)
       | inl e =>
           has_key "datscan" (response_individual_results body) = false /\
           ~ In "datscan" (response_models_used body) /\
           exists es, response_errors body = Some es /\
                      In ("DATScan analysis failed: " ++ str e)%string es
       end) /\
    (forall data, spiral_data = Some data -> data <> "" ->
       match _analyze_spiral spiral_service data None with
       | inr r =>
           In ("spiral", r) (response_individual_results body) /\
           In "spiral" (response_models_used body)
       | inl e =>
           has_key "spiral" (response_individual_results body) = false /\
           ~ In "spiral" (response_models_used body) /\
           exists es, response_errors body = Some es /\
                      In ("Spiral analysis failed: " ++ str e)%string es
       end).
Proof.
  intros UploadFile F N L va ds ss vf df sd.
  unfold multimodal_analysis, analyze_multimodal.
  eexists. split; [reflexivity|].
  cbn [fusion response_individual_results response_models_used response_errors].
  split; [reflexivity|]. split; [|split; [|split]].
  - intros -> -> Hs.
    assert (E : collect va ds ss (mk_analysis_data None None sd None)
                = mk_collected [] [] []).
    { unfold collect, provided_spiral. cbn.
      destruct Hs as [-> | ->]; reflexivity. }
    rewrite E. cbn. repeat split. apply fusion_of_nothing.
  - intros file ->. unfold collect, provided_spiral, guarded.
    cbn [voice_file datscan_file spiral_data drawing_time].
    destruct (_analyze_voice va file) as [e|r];
      destruct df as [dfile|]; [destruct (_analyze_datscan ds dfile)| |
                                destruct (_analyze_datscan ds dfile)|];
      (destruct sd as [[|a s]|]; [| destruct (_analyze_spiral ss _ None) |]);
      cbn; try (split; [reflexivity|]); try (split; [not_listed|]);
      try (eexists; split; [reflexivity|]); try not_listed; tauto.
  - intros file ->. unfold collect, provided_spiral, guarded.
    cbn [voice_file datscan_file spiral_data drawing_time].
    destruct (_analyze_datscan ds file) as [e|r];
      destruct vf as [vfile|]; [destruct (_analyze_voice va vfile)| |
                                destruct (_analyze_voice va vfile)|];
      (destruct sd as [[|a s]|]; [| destruct (_analyze_spiral ss _ None) |]);
      cbn; try (split; [reflexivity|]); try (split; [not_listed|]);
      try (eexists; split; [reflexivity|]); try not_listed; tauto.
  - intros data -> Hd. unfold collect, provided_spiral, guarded.
    cbn [voice_file datscan_file spiral_data drawing_time].
    destruct data as [|a s]; [congruence|].
    destruct (_analyze_spiral ss (String a s) None) as [e|r];
      (destruct vf as [vfile|]; [destruct (_analyze_voice va vfile)|]);
      (destruct df as [dfile|]; [destruct (_analyze_datscan ds dfile)|]);
      cbn; try (split; [reflexivity|]); try (split; [not_listed|]);
      try (eexists; split; [reflexivity|]); try not_listed; tauto.
Qed.

(** On binary64, with a voice predictor that raises and a DATScan
    predictor that answers. *)
Lemma orchestrator_isolates_failures_witness :
  exists body,
    multimodal_analysis Samples.voice_fails Samples.datscan_answers
                        Samples.no_spiral (Some tt) (Some tt) None
    = Returned body /\
    fusion body = _perform_late_fusion (response_individual_results body) /\
    has_key "voice" (response_individual_results body) = false /\
    In "datscan" (response_models_used body) /\
    exists es, response_errors body = Some es /\
               In "Voice analysis failed: unreadable audio" es.
Proof.
  destruct (orchestrator_isolates_failures unit float _ _
              Samples.voice_fails Samples.datscan_answers Samples.no_spiral
              (Some tt) (Some tt) None)
    as (body & E & Hf & _ & Hv & Hd & _).
  exists body. split; [exact E|]. split; [exact Hf|].
  specialize (Hv tt eq_refl). specialize (Hd tt eq_refl).
  cbn in Hv, Hd. destruct Hv as (Hk & _ & He). destruct Hd as (_ & Hm).
  repeat split; assumption.
Defined.

(** C4, as stated, fails: a request with no voice file, no DATScan file and
    no spiral data is not rejected.  The endpoint returns a response whose
    verdict is the fallback of fusion. *)
Lemma no_input_reaches_fallback_counterexample :
  multimodal_analysis (UploadFile:=unit) Samples.voice_fails
                      Samples.datscan_answers Samples.no_spiral None None None
  = Returned
      (mk_response
         (mk_verdict 0 "Insufficient Data" 0%float 0.5%float 0.5%float)
         [] []
         ["Consider repeat testing in 6-12 months";
          "Monitor for new symptoms";
          "Maintain regular exercise routine";
          "Schedule annual neurological check-up"]
         None).
Proof. vm_compute. reflexivity. Qed.

(** ** Facts of binary64 arithmetic *)

Section Binary64.
Local Open Scope Z_scope.

Lemma SFadd_comm (prec emax : Z) (x y : spec_float) :
  SFadd prec emax x y = SFadd prec emax y x.
Proof.
  destruct x as [sx|sx| |sx mx ex], y as [sy|sy| |sy my ey]; cbn;
    try reflexivity; try (destruct sx, sy; reflexivity).
  rewrite Z.min_comm. f_equal. apply Z.add_comm.
Qed.

Lemma SFadd_from_zero_sym (prec emax : Z) (x y : spec_float) :
  SFadd prec emax (SFadd prec emax (S754_zero false) x) y
  = SFadd prec emax (SFadd prec emax (S754_zero false) y) x.
Proof.
  destruct x as [sx|sx| |sx mx ex], y as [sy|sy| |sy my ey]; cbn -[SFadd];
    try (destruct sx); try (destruct sy); try reflexivity;
    cbn -[SFadd]; try apply SFadd_comm.
Qed.

(** [0.0 + x + y == 0.0 + y + x], bit for bit. *)
Lemma float_add_from_zero_sym (x y : float) :
  (0 + x + y = 0 + y + x)%float.
Proof.
  apply Prim2SF_inj. rewrite !FloatAxioms.add_spec. apply SFadd_from_zero_sym.
Qed.





(** With two results the three sums do not depend on the order, rounding
    included: each is [0.0 + x + y]. *)
Lemma two_results_binary64 (a b : string * result float) :
  _perform_late_fusion [a; b] = _perform_late_fusion [b; a].
Proof.
  destruct a as [ka ra], b as [kb rb]. unfold _perform_late_fusion.
  assert (T : fusion_totals [(ka, ra); (kb, rb)]
              = fusion_totals [(kb, rb); (ka, ra)]).
  { unfold fusion_totals. cbn [fold_left]. unfold fusion_step, initial_totals.
    destruct (probability_pd ra), (probability_pd rb);
      cbn [total_weighted_probability total_weight total_confidence
           available_models]; try reflexivity.
    cbn [add lit PyNum_float]. change (float_lit 0) with 0%float.
    f_equal; apply float_add_from_zero_sym. }
  now rewrite T.
Qed.

End Binary64.

(** ** Fusion over the rationals *)

Section ExactSums.
Local Open Scope Q_scope.

Lemma base_weight_positive (k : string) : 0 < base_weight_of (F:=Q) k.
Proof.
  unfold base_weight_of, base_weights. cbn [dict_get].
  destruct (String.eqb "voice" k); [reflexivity|].
  destruct (String.eqb "datscan" k); [reflexivity|].
  destruct (String.eqb "spiral" k); reflexivity.
Qed.

(** The loop computes the four sums, on top of what it started from. *)
Lemma fold_totals (l : results Q) (t : totals Q) :
  total_weighted_probability (fold_left fusion_step l t)
    == total_weighted_probability t + weighted_sum l /\
  total_weight (fold_left fusion_step l t) == total_weight t + weight_sum l /\
  total_confidence (fold_left fusion_step l t)
    == total_confidence t + confidence_sum l /\
  available_models (fold_left fusion_step l t)
    = (available_models t + contributing l)%nat.
Proof.
  revert t. induction l as [|[k r] l IH]; intros t; cbn [fold_left].
  - cbn. repeat split; try ring. lia.
  - destruct (IH (fusion_step t (k, r))) as (E1 & E2 & E3 & E4).
    rewrite E1, E2, E3, E4. unfold fusion_step.
    cbn [weighted_sum weight_sum confidence_sum contributing].
    destruct (probability_pd r); cbn; repeat split; try ring; lia.
Qed.

Lemma totals_sums (l : results Q) :
  total_weighted_probability (fusion_totals l) == weighted_sum l /\
  total_weight (fusion_totals l) == weight_sum l /\
  total_confidence (fusion_totals l) == confidence_sum l /\
  available_models (fusion_totals l) = contributing l.
Proof.
  destruct (fold_totals l initial_totals) as (E1 & E2 & E3 & E4).
  unfold fusion_totals. rewrite E1, E2, E3, E4. cbn.
  repeat split; ring.
Qed.

Lemma weight_sum_app (l1 l2 : results Q) :
  weight_sum (l1 ++ l2) == weight_sum l1 + weight_sum l2.
Proof.
  induction l1 as [|[k r] l1 IH]; cbn [app weight_sum]; [ring|].
  destruct (probability_pd r); rewrite IH; ring.
Qed.

Lemma weighted_sum_app (l1 l2 : results Q) :
  weighted_sum (l1 ++ l2) == weighted_sum l1 + weighted_sum l2.
Proof.
  induction l1 as [|[k r] l1 IH]; cbn [app weighted_sum]; [ring|].
  destruct (probability_pd r); rewrite IH; ring.
Qed.

Lemma sums_permutation (l l' : results Q) :
  Permutation l l' ->
  weighted_sum l == weighted_sum l' /\ weight_sum l == weight_sum l' /\
  confidence_sum l == confidence_sum l' /\ contributing l = contributing l'.
Proof.
  induction 1 as [| [k r] l l' _ (I1 & I2 & I3 & I4)
                  | [k1 r1] [k2 r2] l
                  | l l' l'' _ (I1 & I2 & I3 & I4) _ (J1 & J2 & J3 & J4)].
  - repeat split; reflexivity.
  - cbn [weighted_sum weight_sum confidence_sum contributing].
    destruct (probability_pd r); rewrite ?I1, ?I2, ?I3, ?I4;
      repeat split; reflexivity.
  - cbn [weighted_sum weight_sum confidence_sum contributing].
    destruct (probability_pd r1), (probability_pd r2);
      repeat split; try ring; reflexivity.
  - rewrite I1, I2, I3, I4. repeat split; assumption.
Qed.

(** The verdict is a function of the four totals, up to [==]. *)
Lemma verdict_of_totals (l l' : results Q) :
  total_weighted_probability (fusion_totals l)
    == total_weighted_probability (fusion_totals l') ->
  total_weight (fusion_totals l) == total_weight (fusion_totals l') ->
  total_confidence (fusion_totals l) == total_confidence (fusion_totals l') ->
  available_models (fusion_totals l) = available_models (fusion_totals l') ->
  verdict_eq (_perform_late_fusion l) (_perform_late_fusion l').
Proof.
  intros E1 E2 E3 E4. unfold _perform_late_fusion.
  set (t := fusion_totals l) in *. set (t' := fusion_totals l') in *.
  cbn [gtb lit div sub PyNum_Q]. unfold Qgtb.
  rewrite <- E4.
  assert (Ew : Qle_bool (total_weight t) 0 = Qle_bool (total_weight t') 0)
    by now rewrite E2.
  rewrite <- Ew. destruct (Qle_bool (total_weight t) 0); cbn [negb].
  - repeat split; reflexivity.
  - assert (Ep : total_weighted_probability t / total_weight t
                 == total_weighted_probability t' / total_weight t')
      by now rewrite E1, E2.
    assert (Eg : Qle_bool (total_weighted_probability t / total_weight t) 0.5
                 = Qle_bool (total_weighted_probability t' / total_weight t') 0.5)
      by now rewrite Ep.
    unfold verdict_eq.
    cbn [fusion_prediction fusion_prediction_label fusion_confidence
         fusion_probability_pd fusion_probability_healthy].
    rewrite <- Eg. repeat split; try reflexivity.
    + destruct (0 <? available_models t)%nat; [|reflexivity].
      now rewrite E3.
    + exact Ep.
    + now rewrite Ep.
Qed.
End ExactSums.

Section PassThroughAndOrder.
Local Open Scope Q_scope.

Lemma fused_when_positive (l : results Q) :
  0 < weight_sum l ->
  fusion_probability_pd (_perform_late_fusion l) == weighted_sum l / weight_sum l /\
  fusion_probability_healthy (_perform_late_fusion l)
    == 1 - weighted_sum l / weight_sum l /\
  fusion_confidence (_perform_late_fusion l)
    == (if (0 <? contributing l)%nat
        then confidence_sum l / inject_Z (Z.of_nat (contributing l))
        else 0).
Proof.
  intros Hw. destruct (totals_sums l) as (E1 & E2 & E3 & E4).
  unfold _perform_late_fusion.
  assert (G : gtb (total_weight (fusion_totals l)) (lit 0) = true).
  { cbn [gtb lit PyNum_Q]. apply Qgtb_lt. now rewrite E2. }
  rewrite G.
  cbn [fusion_probability_pd fusion_probability_healthy fusion_confidence
       div sub lit PyNum_Q of_nat].
  rewrite E4. destruct (0 <? contributing l)%nat;
    rewrite ?E1, ?E2, ?E3; repeat split; reflexivity.
Qed.






Lemma permutation_exact (l l' : results Q) :
  Permutation l l' ->
  verdict_eq (_perform_late_fusion l) (_perform_late_fusion l').
Proof.
  intros P.
  destruct (sums_permutation l l' P) as (S1 & S2 & S3 & S4).
  destruct (totals_sums l) as (E1 & E2 & E3 & E4).
  destruct (totals_sums l') as (E1' & E2' & E3' & E4').
  apply verdict_of_totals.
  - now rewrite E1, E1'.
  - now rewrite E2, E2'.
  - now rewrite E3, E3'.
  - congruence.
Qed.

(** C5, as the code has it.  Over the rationals, two orders of the same
    results give verdicts that agree in every field.  On binary64 this
    holds bit for bit for two results; it is from the third result on that
    the order of the additions shows. *)
Theorem fusion_order_independent :
  (forall l l' : results Q,
      Permutation l l' ->
      verdict_eq (_perform_late_fusion l) (_perform_late_fusion l')) /\
  (forall a b : string * result float,
      _perform_late_fusion [a; b] = _perform_late_fusion [b; a]).
Proof.
  split.
  - apply permutation_exact.
  - apply two_results_binary64.
Qed.

(** Scenario A of the specification with a spiral result added, rotated. *)
Lemma fusion_order_independent_witness :
  verdict_eq
    (_perform_late_fusion
       [("voice", mk_result (Some 0.8) (Some 0.2) (Some 0.9));
        ("datscan", mk_result (Some 0.3) (Some 0.7) (Some 0.5));
        ("spiral", mk_result (Some 0.4) (Some 0.6) (Some 0.6))])
    (_perform_late_fusion
       [("spiral", mk_result (Some 0.4) (Some 0.6) (Some 0.6));
        ("voice", mk_result (Some 0.8) (Some 0.2) (Some 0.9));
        ("datscan", mk_result (Some 0.3) (Some 0.7) (Some 0.5))]).
Proof.
  apply (proj1 fusion_order_independent).
  apply Permutation_sym.
  apply (Permutation_cons_app
           [("voice", mk_result (Some 0.8) (Some 0.2) (Some 0.9));
            ("datscan", mk_result (Some 0.3) (Some 0.7) (Some 0.5))] []).
  rewrite app_nil_r. apply Permutation_refl.
Defined.

(** C5, as stated, fails on binary64: three well-formed results fuse to
    probability_pd 0.5 and prediction 0 in the order voice, datscan,
    spiral, and to 0.5000000000000001 and prediction 1 in the order
    spiral, voice, datscan. *)
Lemma fusion_order_matters_counterexample :
  forallb (fun item => valid_result_float (snd item))
          [Samples.voice_A; Samples.datscan_B; Samples.spiral_C] = true /\
  _perform_late_fusion [Samples.voice_A; Samples.datscan_B; Samples.spiral_C]
  = mk_verdict 0 "Healthy" 0x1.7777777777778p-2%float 0.5%float 0.5%float /\
  _perform_late_fusion [Samples.spiral_C; Samples.voice_A; Samples.datscan_B]
  = mk_verdict 1 "Parkinson's Disease" 0x1.7777777777778p-2%float
               0x1.0000000000001p-1%float 0x1.ffffffffffffep-2%float.
Proof. repeat split; vm_compute; reflexivity. Qed.
End PassThroughAndOrder.

Section RangeAndMonotonicity.
Local Open Scope Q_scope.



(** Moving one weight of a weighted mean. *)
Lemma mean_moves (N0 W0 p w w' : Q) :
  0 < W0 + w -> w < w' ->
  ((N0 + p * w) / (W0 + w) < p ->
   (N0 + p * w) / (W0 + w) < (N0 + p * w') / (W0 + w')) /\
  (p < (N0 + p * w) / (W0 + w) ->
   (N0 + p * w') / (W0 + w') < (N0 + p * w) / (W0 + w)).
Proof.
  intros HW Hw.
  assert (HW' : 0 < W0 + w') by lra.
  assert (NZ : ~ W0 + w == 0) by lra.
  assert (NZ' : ~ W0 + w' == 0) by lra.
  assert (EN : N0 + p * w == (N0 + p * w) / (W0 + w) * (W0 + w)) by (field; exact NZ).
  split; intros Hp.
  - assert (Hlt : N0 + p * w < p * (W0 + w)).
    { rewrite EN at 1. apply Qmult_lt_compat_r; assumption. }
    assert (Hpos : 0 < (w' - w) * (p * W0 - N0))
      by (apply Qmult_lt_0_compat; lra).
    apply Qlt_shift_div_r; [exact HW|].
    setoid_replace ((N0 + p * w') / (W0 + w') * (W0 + w))
      with ((N0 + p * w') * (W0 + w) / (W0 + w')) by (field; exact NZ').
    apply Qlt_shift_div_l; [exact HW'|].
    setoid_replace ((N0 + p * w') * (W0 + w))
      with ((N0 + p * w) * (W0 + w') + (w' - w) * (p * W0 - N0)) by ring.
    lra.
  - assert (Hlt : p * (W0 + w) < N0 + p * w).
    { rewrite EN at 1. apply Qmult_lt_compat_r; assumption. }
    assert (Hpos : 0 < (w' - w) * (N0 - p * W0))
      by (apply Qmult_lt_0_compat; lra).
    apply Qlt_shift_div_r; [exact HW'|].
    setoid_replace ((N0 + p * w) / (W0 + w) * (W0 + w'))
      with ((N0 + p * w) * (W0 + w') / (W0 + w)) by (field; exact NZ).
    apply Qlt_shift_div_l; [exact HW|].
    setoid_replace ((N0 + p * w) * (W0 + w'))
      with ((N0 + p * w') * (W0 + w) + (w' - w) * (N0 - p * W0)) by ring.
    lra.
Qed.

Lemma sums_around (l1 l2 : results Q) (k : string) (p c : Q) (h : option Q) :
  weighted_sum (l1 ++ (k, mk_result (Some p) h (Some c)) :: l2)
    == (weighted_sum l1 + weighted_sum l2) + p * (base_weight_of k * c) /\
  weight_sum (l1 ++ (k, mk_result (Some p) h (Some c)) :: l2)
    == (weight_sum l1 + weight_sum l2) + base_weight_of k * c.
Proof.
  rewrite weighted_sum_app, weight_sum_app.
  cbn [weighted_sum weight_sum probability_pd].
  unfold adjusted_weight, confidence_of. cbn [confidence mul PyNum_Q].
  split; ring.
Qed.

(** C8, over the rationals.  With a positive total weight, raising the
    confidence of one contributing result moves the fused probability_pd
    strictly towards that result's probability_pd: strictly up when the
    result lies above the fused value, strictly down when it lies below;
    everything else is held fixed. *)
Theorem confidence_pulls_fused_probability :
  forall (l1 l2 : results Q) (k : string) (p c c' : Q) (h : option Q),
    0 < total_weight
          (fusion_totals (l1 ++ (k, mk_result (Some p) h (Some c)) :: l2)) ->
    c < c' ->
    (fusion_probability_pd
       (_perform_late_fusion (l1 ++ (k, mk_result (Some p) h (Some c)) :: l2)) < p ->
     fusion_probability_pd
       (_perform_late_fusion (l1 ++ (k, mk_result (Some p) h (Some c)) :: l2))
     < fusion_probability_pd
         (_perform_late_fusion (l1 ++ (k, mk_result (Some p) h (Some c')) :: l2))) /\
    (p < fusion_probability_pd
           (_perform_late_fusion (l1 ++ (k, mk_result (Some p) h (Some c)) :: l2)) ->
     fusion_probability_pd
       (_perform_late_fusion (l1 ++ (k, mk_result (Some p) h (Some c')) :: l2))
     < fusion_probability_pd
         (_perform_late_fusion (l1 ++ (k, mk_result (Some p) h (Some c)) :: l2))).
Proof.
  intros l1 l2 k p c c' h HW Hc.
  pose proof (base_weight_positive k) as Hb.
  destruct (sums_around l1 l2 k p c h) as (N & W).
  destruct (sums_around l1 l2 k p c' h) as (N' & W').
  set (old := l1 ++ (k, mk_result (Some p) h (Some c)) :: l2) in *.
  set (new := l1 ++ (k, mk_result (Some p) h (Some c')) :: l2) in *.
  set (b := base_weight_of k) in *.
  assert (Hw : b * c < b * c').
  { rewrite !(Qmult_comm b). apply Qmult_lt_compat_r; assumption. }
  assert (Hold : 0 < weight_sum old).
  { destruct (totals_sums old) as (_ & E & _). now rewrite <- E. }
  assert (Hnew : 0 < weight_sum new) by (rewrite W'; rewrite W in Hold; lra).
  destruct (fused_when_positive old Hold) as (Eo & _).
  destruct (fused_when_positive new Hnew) as (En & _).
  rewrite Eo, En, N, W, N', W'.
  apply mean_moves; [now rewrite <- W | exact Hw].
Qed.

(** Voice above and DATScan below a fused value of about 0.51: raising
    the voice confidence from 0.5 to 0.9 raises the fused value, raising
    the DATScan confidence from 0.5 to 0.9 lowers it. *)
Lemma confidence_pulls_fused_probability_witness :
  fusion_probability_pd
    (_perform_late_fusion
       [("voice", mk_result (Some 0.8) (Some 0.2) (Some 0.5));
        ("datscan", mk_result (Some 0.3) (Some 0.7) (Some 0.5))])
  < fusion_probability_pd
      (_perform_late_fusion
         [("voice", mk_result (Some 0.8) (Some 0.2) (Some 0.9));
          ("datscan", mk_result (Some 0.3) (Some 0.7) (Some 0.5))]) /\
  fusion_probability_pd
    (_perform_late_fusion
       [("voice", mk_result (Some 0.8) (Some 0.2) (Some 0.5));
        ("datscan", mk_result (Some 0.3) (Some 0.7) (Some 0.9))])
  < fusion_probability_pd
      (_perform_late_fusion
         [("voice", mk_result (Some 0.8) (Some 0.2) (Some 0.5));
          ("datscan", mk_result (Some 0.3) (Some 0.7) (Some 0.5))]).
Proof.
  split.
  - refine (proj1 (confidence_pulls_fused_probability
             [] [("datscan", mk_result (Some 0.3) (Some 0.7) (Some 0.5))]
             "voice" 0.8 0.5 0.9 (Some 0.2) _ _) _); reflexivity.
  - refine (proj2 (confidence_pulls_fused_probability
             [("voice", mk_result (Some 0.8) (Some 0.2) (Some 0.5))] []
             "datscan" 0.3 0.5 0.9 (Some 0.7) _ _) _); reflexivity.
Defined.

(** C8, as stated, fails on binary64.  Next to a DATScan result (pd 0.1,
    confidence 1.0) a voice result with pd 1.0 lies above the fused value
    0.25000000000000006; raising its confidence from 0.5 to
    0.5000000000000001 lowers the fused value to 0.25. *)
Lemma confidence_step_lost_counterexample :
  PrimFloat.ltb 0.5 0x1.0000000000001p-1 = true /\
  fusion_probability_pd
    (_perform_late_fusion [Samples.voice_pd 0.5; Samples.datscan_low])
  = 0x1.0000000000001p-2%float /\
  fusion_probability_pd
    (_perform_late_fusion
       [Samples.voice_pd 0x1.0000000000001p-1; Samples.datscan_low])
  = 0.25%float.
Proof. repeat split; vm_compute; reflexivity. Qed.
End RangeAndMonotonicity.

(** ** Further facts *)

(** The decimal literals of the source, read on binary64, are the values
    the literal denotes. *)
Lemma float_literals :
  float_lit 0.20 = 0.2%float /\ float_lit 0.50 = 0.5%float /\
  float_lit 0.30 = 0.3%float /\ float_lit 0.1 = 0.1%float /\
  float_lit 0.7 = 0.7%float /\ float_lit 0.8 = 0.8%float /\
  float_lit 0 = 0%float /\ float_lit 1 = 1%float.
Proof. repeat split; reflexivity. Qed.

(** Scenario A of the specification on binary64: effective weights 0.18 and
    0.25, fused probability_pd 0.5093..., prediction 1, confidence 0.7. *)
Lemma scenario_A_binary64 :
  _perform_late_fusion
    [("voice", Samples.res 0.8 0.2 0.9); ("datscan", Samples.res 0.3 0.7 0.5)]
  = mk_verdict 1 "Parkinson's Disease" 0.7%float
               0x1.04c346404c346p-1%float 0x1.f679737f67974p-2%float.
Proof. vm_compute. reflexivity. Qed.

(** Over the rationals and with a positive sum of weights, the fused
    probability_pd is the weighted mean of the probabilities, the fused
    probability_healthy its complement, and the fused confidence the plain
    mean of the confidences. *)
Theorem fusion_is_weighted_mean :
  forall l : results Q,
    (0 < weight_sum l)%Q ->
    (fusion_probability_pd (_perform_late_fusion l)
       == weighted_sum l / weight_sum l)%Q /\
    (fusion_probability_healthy (_perform_late_fusion l)
       == 1 - weighted_sum l / weight_sum l)%Q /\
    (fusion_confidence (_perform_late_fusion l)
       == confidence_sum l / inject_Z (Z.of_nat (contributing l)))%Q.
Proof.
  intros l Hw. destruct (fused_when_positive l Hw) as (E1 & E2 & E3).
  split; [exact E1|]. split; [exact E2|].
  rewrite E3. destruct (contributing l) as [|n] eqn:En; [|reflexivity].
  exfalso. revert Hw En. clear. induction l as [|[k r] l IH]; cbn.
  - intros Hw _. discriminate.
  - destruct (probability_pd r); [discriminate | exact IH].
Qed.

Lemma fusion_is_weighted_mean_witness :
  (fusion_probability_pd
     (_perform_late_fusion
        [("voice", mk_result (Some 0.8) (Some 0.2) (Some 0.9));
         ("datscan", mk_result (Some 0.3) (Some 0.7) (Some 0.5))])
   == 0.219 / 0.43)%Q.
Proof.
  refine (Qeq_trans _ _ _
            (proj1 (fusion_is_weighted_mean
                      [("voice", mk_result (Some 0.8) (Some 0.2) (Some 0.9));
                       ("datscan", mk_result (Some 0.3) (Some 0.7) (Some 0.5))] _))
            _); reflexivity.
Defined.

(** Scenario C of the specification: with the three inputs supplied and
    the three predictors raising, the endpoint returns a response with the
    fallback verdict, no model used and the three messages in [errors]. *)
Theorem all_modalities_fail :
  forall (UploadFile F : Type) (N : PyNum F) (L : PyNumLaws F)
         (e1 e2 e3 : exn) (voice datscan : UploadFile) (a : Ascii.ascii)
         (s : string),
    multimodal_analysis (Some (fun _ => inl e1)) (Some (fun _ => inl e2))
                        (Some (fun _ _ => inl e3))
                        (Some voice) (Some datscan) (Some (String a s))
    = Returned
        (mk_response fallback_verdict [] []
           (_generate_recommendations fallback_verdict [])
           (Some [("Voice analysis failed: " ++ str e1)%string;
                  ("DATScan analysis failed: " ++ str e2)%string;
                  ("Spiral analysis failed: " ++ str e3)%string])).
Proof.
  intros. unfold multimodal_analysis, analyze_multimodal. cbn.
  now rewrite fusion_of_nothing.
Qed.

Lemma all_modalities_fail_witness :
  multimodal_analysis (UploadFile:=unit) (F:=float)
    (Some (fun _ => inl (Exception "unreadable audio")))
    (Some (fun _ => inl (Exception "not an image")))
    (Some (fun _ _ => inl (Exception "empty drawing")))
    (Some tt) (Some tt) (Some "AAAA")
  = Returned
      (mk_response
         (mk_verdict 0 "Insufficient Data" 0%float 0.5%float 0.5%float) [] []
         ["Consider repeat testing in 6-12 months";
          "Monitor for new symptoms";
          "Maintain regular exercise routine";
          "Schedule annual neurological check-up"]
         (Some ["Voice analysis failed: unreadable audio";
                "DATScan analysis failed: not an image";
                "Spiral analysis failed: empty drawing"])).
Proof.
  exact (all_modalities_fail unit float _ _
           (Exception "unreadable audio") (Exception "not an image")
           (Exception "empty drawing") tt tt "A"%char "AAA").
Defined.

(** * The rest of the service: properties *)

(** ** Comparison on both readings *)

#[export] Instance PyOrderLaws_Q : PyOrderLaws Q.
Proof.
  constructor; cbn.
  - intros x y G. apply Qgtb_lt in G. apply Qgtb_le. now apply Qlt_le_weak.
  - intros x y _. unfold isnan. cbn. rewrite !Qeq_bool_refl. now split.
Qed.

Lemma Pos_compare_cont_antisym_Eq (p q : positive) :
  Pos.compare_cont Eq q p = CompOpp (Pos.compare_cont Eq p q).
Proof. apply ZC4. Qed.

(** Swapping the operands of a binary64 comparison swaps its outcome. *)
Lemma SFcompare_swap (a b : spec_float) :
  SFcompare b a = option_map CompOpp (SFcompare a b).
Proof.
  destruct a as [sa|sa| |sa ma ea], b as [sb|sb| |sb mb eb]; cbn;
    try reflexivity; try (destruct sa; reflexivity);
    try (destruct sb; reflexivity); try (destruct sa, sb; reflexivity).
  change PosDef.Pos.compare_cont with Pos.compare_cont.
  rewrite (Z.compare_antisym ea eb), (Pos_compare_cont_antisym_Eq ma mb).
  destruct sa, sb; try reflexivity;
    destruct (ea ?= eb)%Z; cbn; try reflexivity;
    destruct (Pos.compare_cont Eq ma mb); reflexivity.
Qed.

Lemma SFcompare_refl (a : spec_float) :
  a <> S754_nan -> SFcompare a a = Some Eq.
Proof.
  destruct a as [s|s| |s m e]; cbn; intros N; try reflexivity;
    try (now destruct s); try congruence.
  change PosDef.Pos.compare_cont with Pos.compare_cont.
  rewrite Z.compare_refl, Pos.compare_cont_refl. now destruct s.
Qed.

Lemma SFcompare_nan (a b : spec_float) :
  SFcompare a b = None <-> a = S754_nan \/ b = S754_nan.
Proof.
  destruct a as [sa|sa| |sa ma ea], b as [sb|sb| |sb mb eb]; cbn;
    split; intros E; try discriminate; try reflexivity; auto;
    destruct E; discriminate.
Qed.

Lemma float_is_number (x : float) :
  PrimFloat.eqb x x = true <-> Prim2SF x <> S754_nan.
Proof.
  rewrite FloatAxioms.eqb_spec. unfold SFeqb. split.
  - intros E N. rewrite N in E. discriminate.
  - intros N. now rewrite SFcompare_refl.
Qed.

#[export] Instance PyOrderLaws_float : PyOrderLaws float.
Proof.
  constructor; cbn.
  - intros x y G. rewrite FloatAxioms.ltb_spec in *. unfold SFltb in *.
    rewrite (SFcompare_swap (Prim2SF y) (Prim2SF x)).
    destruct (SFcompare (Prim2SF y) (Prim2SF x)) as [[]|]; try discriminate.
    reflexivity.
  - intros x y G. rewrite FloatAxioms.ltb_spec in G. unfold SFltb in G.
    unfold isnan. cbn. rewrite !negb_false_iff, !float_is_number.
    split; intros N;
      assert (E : SFcompare (Prim2SF y) (Prim2SF x) = None)
        by (apply SFcompare_nan; auto);
      rewrite E in G; discriminate.
Qed.

(** On binary64, between numbers, "not less" is "greater or equal". *)
Lemma float_not_lt_le (x y : float) :
  PrimFloat.eqb x x = true -> PrimFloat.eqb y y = true ->
  PrimFloat.ltb x y = false -> PrimFloat.leb y x = true.
Proof.
  rewrite !float_is_number, FloatAxioms.ltb_spec, FloatAxioms.leb_spec.
  unfold SFltb, SFleb. intros Nx Ny.
  rewrite (SFcompare_swap (Prim2SF x) (Prim2SF y)).
  destruct (SFcompare (Prim2SF x) (Prim2SF y)) as [[]|] eqn:C; cbn;
    try reflexivity; try discriminate.
  apply SFcompare_nan in C. tauto.
Qed.

(** ** Clamping *)

Section Clamping.
Context {F : Type} `{PyOrderLaws F}.

Lemma gtb_irrefl (x : F) : gtb x x = false.
Proof.
  destruct (gtb x x) eqn:G; [|reflexivity].
  now rewrite (gtb_asym _ _ G) in G.
Qed.

Lemma gtb_nan_l (x y : F) : isnan x = true -> gtb x y = false.
Proof.
  intros N. destruct (gtb x y) eqn:G; [|reflexivity].
  apply gtb_numbers in G. destruct G as [G _]. congruence.
Qed.

Lemma gtb_nan_r (x y : F) : isnan y = true -> gtb x y = false.
Proof.
  intros N. destruct (gtb x y) eqn:G; [|reflexivity].
  apply gtb_numbers in G. destruct G as [_ G]. congruence.
Qed.

(** The clamped value is never below [lo] and never above [hi]. *)
Lemma np_clip_within (x lo hi : F) :
  gtb lo hi = false ->
  gtb lo (np_clip x lo hi) = false /\ gtb (np_clip x lo hi) hi = false.
Proof.
  intros Hb. unfold np_clip.
  destruct (isnan x) eqn:Nx.
  - rewrite Nx. split; [now apply gtb_nan_r | now apply gtb_nan_l].
  - destruct (gtb x lo) eqn:G1.
    + rewrite Nx. destruct (gtb hi x) eqn:G2.
      * split; now apply gtb_asym.
      * split; [exact Hb | apply gtb_irrefl].
    + destruct (isnan lo) eqn:Nl.
      * split; [apply gtb_irrefl | now apply gtb_nan_l].
      * destruct (gtb hi lo) eqn:G2.
        -- split; [apply gtb_irrefl | now apply gtb_asym].
        -- split; [exact Hb | apply gtb_irrefl].
Qed.

(** The clamped value is a number when the clamped one and the bounds
    are. *)
Lemma np_clip_number (x lo hi : F) :
  isnan x = false -> isnan lo = false -> isnan hi = false ->
  isnan (np_clip x lo hi) = false.
Proof.
  intros Nx Nl Nh. unfold np_clip. rewrite Nx.
  destruct (gtb x lo).
  - rewrite Nx. now destruct (gtb hi x).
  - rewrite Nl. now destruct (gtb hi lo).
Qed.

End Clamping.

(** Clamping over the rationals. *)
Lemma np_clip_Q (x lo hi : Q) :
  (lo <= hi)%Q ->
  (np_clip x lo hi == (if Qlt_le_dec x lo then lo
                       else if Qlt_le_dec hi x then hi else x))%Q.
Proof.
  intros Hb. unfold np_clip, isnan. cbn [eqb gtb PyNum_Q].
  rewrite Qeq_bool_refl. cbn [negb].
  destruct (Qgtb x lo) eqn:G1.
  - apply Qgtb_lt in G1. rewrite Qeq_bool_refl. cbn [negb].
    destruct (Qlt_le_dec x lo) as [L|L]; [exfalso; lra|].
    destruct (Qgtb hi x) eqn:G2.
    + apply Qgtb_lt in G2. destruct (Qlt_le_dec hi x); [exfalso; lra|reflexivity].
    + apply Qgtb_le in G2. destruct (Qlt_le_dec hi x); [reflexivity|lra].
  - apply Qgtb_le in G1. rewrite Qeq_bool_refl. cbn [negb].
    destruct (Qgtb hi lo) eqn:G2.
    + apply Qgtb_lt in G2.
      destruct (Qlt_le_dec x lo); [reflexivity|].
      destruct (Qlt_le_dec hi x); lra.
    + apply Qgtb_le in G2.
      destruct (Qlt_le_dec x lo); [lra|].
      destruct (Qlt_le_dec hi x); lra.
Qed.

Lemma np_clip_Q_bounds (x lo hi : Q) :
  (lo <= hi)%Q -> (lo <= np_clip x lo hi <= hi)%Q.
Proof.
  intros Hb. rewrite (np_clip_Q x lo hi Hb).
  destruct (Qlt_le_dec x lo); [lra|]. destruct (Qlt_le_dec hi x); lra.
Qed.

Lemma np_clip_Q_monotone (x y lo hi : Q) :
  (lo <= hi)%Q -> (x <= y)%Q -> (np_clip x lo hi <= np_clip y lo hi)%Q.
Proof.
  intros Hb Hxy. rewrite (np_clip_Q x lo hi Hb), (np_clip_Q y lo hi Hb).
  destruct (Qlt_le_dec x lo), (Qlt_le_dec y lo),
    (Qlt_le_dec hi x), (Qlt_le_dec hi y); lra.
Qed.

(** ** The spiral predictor *)

Section SpiralFacts.
Local Open Scope Q_scope.

Lemma time_factor_Q (drawing_time : option Q) :
  Spiral.time_factor drawing_time
  = match drawing_time with
    | Some t =>
        if Qeq_bool t 0 then 1.0
        else if Qgtb 15 t then 0.8
        else if Qgtb t 60 then 0.7 else 1.0
    | None => 1.0
    end.
Proof.
  destruct drawing_time as [t|]; [|reflexivity].
  unfold Spiral.time_factor, truthy. cbn [eqb gtb lit PyNum_Q].
  now destruct (Qeq_bool t 0).
Qed.

(** What a clamped pair of values makes of a prediction dict, over the
    rationals. *)
Lemma clamped_result_valid (x c : Q) (n : Z) (label : string) :
  valid_result
    (as_result
       (mk_prediction_result n label (np_clip c 0.3 0.95) (np_clip x 0.1 0.9)
                             (1.0 - np_clip x 0.1 0.9))).
Proof.
  pose proof (np_clip_Q_bounds x 0.1 0.9 ltac:(discriminate)) as [P0 P1].
  pose proof (np_clip_Q_bounds c 0.3 0.95 ltac:(discriminate)) as [C0 C1].
  exists (np_clip x 0.1 0.9), (1.0 - np_clip x 0.1 0.9), (np_clip c 0.3 0.95).
  split; [reflexivity|].
  repeat split; first [lra | ring].
Qed.
End SpiralFacts.

(** On binary64 a clamped value is never outside its interval, and lies
    inside it whenever it is a number. *)
Lemma clamped_float (x lo hi : float) :
  PrimFloat.ltb hi lo = false ->
  PrimFloat.eqb lo lo = true -> PrimFloat.eqb hi hi = true ->
  PrimFloat.ltb (np_clip x lo hi) lo = false /\
  PrimFloat.ltb hi (np_clip x lo hi) = false /\
  (PrimFloat.eqb (np_clip x lo hi) (np_clip x lo hi) = true ->
   PrimFloat.leb lo (np_clip x lo hi) = true /\
   PrimFloat.leb (np_clip x lo hi) hi = true).
Proof.
  intros Hb Nl Nh.
  destruct (@np_clip_within float PyNum_float _ x lo hi Hb) as [W1 W2].
  cbn [gtb PyNum_float] in W1, W2.
  split; [exact W1|]. split; [exact W2|].
  intros Nr. split; now apply float_not_lt_le.
Qed.

(** Whatever the features, the drawing time and the value of [np.std],
    the spiral predictor returns a result fusion can take.
    - Over the rationals: probability_pd lies in [0.1, 0.9],
      probability_healthy is its complement, the confidence lies in
      [0.3, 0.95], and the prediction is 1 exactly when probability_pd
      exceeds 0.5; the result meets every condition of [valid_result].
    - On binary64: probability_pd is never below 0.1 nor above 0.9 and the
      confidence never below 0.3 nor above 0.95; each lies in its interval
      whenever it is a number. *)
Theorem spiral_prediction_well_formed :
  (forall (np_std : list Q -> Q) (features : list (string * Q))
          (drawing_time : option Q),
      valid_result (as_result (Spiral._mock_prediction np_std features drawing_time)) /\
      (0.1 <= predicted_probability_pd
                (Spiral._mock_prediction np_std features drawing_time) <= 0.9)%Q /\
      (0.3 <= predicted_confidence
                (Spiral._mock_prediction np_std features drawing_time) <= 0.95)%Q /\
      (prediction (Spiral._mock_prediction np_std features drawing_time) = 1%Z <->
       (0.5 < predicted_probability_pd
                (Spiral._mock_prediction np_std features drawing_time))%Q)) /\
  (forall (np_std : list float -> float) (features : list (string * float))
          (drawing_time : option float),
      (PrimFloat.ltb (predicted_probability_pd
                        (Spiral._mock_prediction np_std features drawing_time)) 0.1
       = false /\
       PrimFloat.ltb 0.9 (predicted_probability_pd
                            (Spiral._mock_prediction np_std features drawing_time))
       = false /\
       (PrimFloat.eqb
          (predicted_probability_pd
             (Spiral._mock_prediction np_std features drawing_time))
          (predicted_probability_pd
             (Spiral._mock_prediction np_std features drawing_time)) = true ->
        PrimFloat.leb 0.1 (predicted_probability_pd
                             (Spiral._mock_prediction np_std features drawing_time))
        = true /\
        PrimFloat.leb (predicted_probability_pd
                         (Spiral._mock_prediction np_std features drawing_time)) 0.9
        = true)) /\
      (PrimFloat.ltb (predicted_confidence
                        (Spiral._mock_prediction np_std features drawing_time)) 0.3
       = false /\
       PrimFloat.ltb 0.95 (predicted_confidence
                             (Spiral._mock_prediction np_std features drawing_time))
       = false /\
       (PrimFloat.eqb
          (predicted_confidence
             (Spiral._mock_prediction np_std features drawing_time))
          (predicted_confidence
             (Spiral._mock_prediction np_std features drawing_time)) = true ->
        PrimFloat.leb 0.3 (predicted_confidence
                             (Spiral._mock_prediction np_std features drawing_time))
        = true /\
        PrimFloat.leb (predicted_confidence
                         (Spiral._mock_prediction np_std features drawing_time)) 0.95
        = true))).
Proof.
  split.
  - intros np_std features drawing_time.
    unfold Spiral._mock_prediction.
    set (x := Spiral.raw_probability features drawing_time).
    set (c := add (lit 0.6) _).
    cbn [predicted_probability_pd predicted_confidence prediction lit sub PyNum_Q].
    split; [apply clamped_result_valid|].
    split; [apply np_clip_Q_bounds; discriminate|].
    split; [apply np_clip_Q_bounds; discriminate|].
    cbn [gtb PyNum_Q].
    destruct (Qgtb (np_clip x 0.1 0.9) 0.5) eqn:G.
    + apply Qgtb_lt in G. split; [intros _; exact G | reflexivity].
    + apply Qgtb_le in G. split; [discriminate | intros L; exfalso; lra].
  - intros np_std features drawing_time.
    unfold Spiral._mock_prediction.
    cbn [predicted_probability_pd predicted_confidence].
    split; apply clamped_float; reflexivity.
Qed.

Lemma time_factor_cases {F : Type} `{PyNum F} (drawing_time : option F) :
  Spiral.time_factor drawing_time = lit 0.8 \/
  Spiral.time_factor drawing_time = lit 0.7 \/
  Spiral.time_factor drawing_time = lit 1.0.
Proof.
  destruct drawing_time as [t|]; cbn; [|tauto].
  destruct (truthy t); [|tauto].
  destruct (gtb (lit 15) t); [tauto|].
  destruct (gtb t (lit 60)); tauto.
Qed.

(** The drawing time enters the score in three steps only.  A time that
    compares equal to zero is treated as no time at all, in any
    arithmetic.  Over the rationals, a non-zero time below 15 adds 0.02 to
    the score before clamping, a time above 60 adds 0.03, and every time
    from 15 to 60, both included, adds nothing. *)
Theorem spiral_drawing_time_effect :
  (forall (F : Type) (N : PyNum F) (np_std : list F -> F)
          (features : list (string * F)) (t : F),
      eqb t (lit 0) = true ->
      Spiral._mock_prediction np_std features (Some t)
      = Spiral._mock_prediction np_std features None) /\
  (forall (features : list (string * Q)) (t : Q),
      (Spiral.raw_probability features (Some t)
       == Spiral.raw_probability features None
          + (if Qeq_bool t 0 then 0
             else if Qlt_le_dec t 15 then 0.02
             else if Qlt_le_dec 60 t then 0.03
             else 0))%Q).
Proof.
  split.
  - intros F N np_std features t E.
    unfold Spiral._mock_prediction, Spiral.raw_probability, Spiral.time_factor,
      truthy.
    now rewrite E.
  - intros features t. unfold Spiral.raw_probability.
    rewrite !time_factor_Q. cbn [add sub mul lit PyNum_Q].
    destruct (Qeq_bool t 0); [ring|].
    destruct (Qgtb 15 t) eqn:G1.
    + apply Qgtb_lt in G1. destruct (Qlt_le_dec t 15); [ring | exfalso; lra].
    + apply Qgtb_le in G1. destruct (Qlt_le_dec t 15); [exfalso; lra|].
      destruct (Qgtb t 60) eqn:G2.
      * apply Qgtb_lt in G2. destruct (Qlt_le_dec 60 t); [ring | exfalso; lra].
      * apply Qgtb_le in G2. destruct (Qlt_le_dec 60 t); [exfalso; lra | ring].
Qed.

(** A drawing time of 0.0 on binary64, and the two ends of the optimal
    range over the rationals. *)
Lemma spiral_drawing_time_effect_witness :
  Spiral._mock_prediction (fun _ => 0.2%float) [("tremor_severity", 0.7%float)]
                          (Some 0%float)
  = Spiral._mock_prediction (fun _ => 0.2%float) [("tremor_severity", 0.7%float)]
                            None /\
  (Spiral.raw_probability [("tremor_severity", 0.7)] (Some 15)
   == Spiral.raw_probability [("tremor_severity", 0.7)] None + 0)%Q /\
  (Spiral.raw_probability [("tremor_severity", 0.7)] (Some 61)
   == Spiral.raw_probability [("tremor_severity", 0.7)] None + 0.03)%Q.
Proof.
  split; [|split].
  - apply (proj1 spiral_drawing_time_effect float _). reflexivity.
  - exact (proj2 spiral_drawing_time_effect [("tremor_severity", 0.7%Q)] 15%Q).
  - exact (proj2 spiral_drawing_time_effect [("tremor_severity", 0.7%Q)] 61%Q).
Defined.

(** Over the rationals the probability follows the three scores it is
    built from: with the drawing time fixed, less motor control, more
    tremor and less consistency never lower probability_pd.  A missing
    score counts as 0.5. *)
Theorem spiral_probability_monotone :
  forall (np_std : list Q -> Q) (f1 f2 : list (string * Q))
         (drawing_time : option Q),
    (dict_get f2 "motor_control_score" 0.5
       <= dict_get f1 "motor_control_score" 0.5)%Q ->
    (dict_get f1 "tremor_severity" 0.5
       <= dict_get f2 "tremor_severity" 0.5)%Q ->
    (dict_get f2 "drawing_consistency" 0.5
       <= dict_get f1 "drawing_consistency" 0.5)%Q ->
    (predicted_probability_pd (Spiral._mock_prediction np_std f1 drawing_time)
       <= predicted_probability_pd
            (Spiral._mock_prediction np_std f2 drawing_time))%Q.
Proof.
  intros np_std f1 f2 drawing_time Hm Ht Hc.
  unfold Spiral._mock_prediction. cbn [predicted_probability_pd lit PyNum_Q].
  apply np_clip_Q_monotone; [discriminate|].
  unfold Spiral.raw_probability. cbn [add sub mul lit PyNum_Q].
  set (tf := Spiral.time_factor drawing_time).
  lra.
Qed.

Lemma spiral_probability_monotone_witness :
  (predicted_probability_pd
     (Spiral._mock_prediction (fun _ => 0.2)
        [("motor_control_score", 0.9); ("tremor_severity", 0.2)] None)
   <= predicted_probability_pd
        (Spiral._mock_prediction (fun _ => 0.2)
           [("motor_control_score", 0.5); ("tremor_severity", 0.6)] None))%Q.
Proof.
  apply spiral_probability_monotone; discriminate.
Defined.

(** When feature extraction fails and every feature is set to 0.5, the
    spiral predictor answers "Healthy", whatever the drawing time and
    whatever [np.std] returns, over the rationals and on binary64; over
    the rationals its probability_pd is then between 0.45 and 0.48. *)
Theorem spiral_default_features_healthy :
  (forall (np_std : list Q -> Q) (drawing_time : option Q),
      prediction (Spiral._mock_prediction np_std Spiral.default_features
                                          drawing_time) = 0%Z /\
      prediction_label (Spiral._mock_prediction np_std Spiral.default_features
                                                drawing_time) = "Healthy" /\
      (0.45 <= predicted_probability_pd
                 (Spiral._mock_prediction np_std Spiral.default_features
                                          drawing_time) <= 0.48)%Q) /\
  (forall (np_std : list float -> float) (drawing_time : option float),
      prediction (Spiral._mock_prediction np_std Spiral.default_features
                                          drawing_time) = 0%Z /\
      prediction_label (Spiral._mock_prediction np_std Spiral.default_features
                                                drawing_time) = "Healthy").
Proof.
  split.
  - intros np_std drawing_time.
    unfold Spiral._mock_prediction, Spiral.raw_probability.
    cbn [prediction prediction_label predicted_probability_pd].
    destruct (time_factor_cases drawing_time) as [E | [E | E]]; rewrite E;
      repeat split; vm_compute; congruence.
  - intros np_std drawing_time.
    unfold Spiral._mock_prediction, Spiral.raw_probability.
    cbn [prediction prediction_label].
    destruct (time_factor_cases drawing_time) as [E | [E | E]]; rewrite E;
      split; vm_compute; reflexivity.
Qed.

(** *** Key features *)

Section KeyFeatures.
Context {F : Type} `{PyNum F}.

(** The entry built for one name. *)
Let entry (features : list (string * F)) (item : string * F)
  : Spiral.key_feature F :=
  Spiral.mk_key_feature (fst item) (snd item)
    (Spiral._get_feature_description (fst item))
    (Spiral._get_feature_category (fst item))
    (dict_get features (fst item) (lit 0)).

Lemma key_features_fold (features : list (string * F))
    (l : list (string * F)) (acc : list (Spiral.key_feature F)) :
  fold_left (Spiral.key_features_step features) l acc
  = acc ++ map (entry features)
             (filter (fun item => dict_has (fst item) features) l).
Proof.
  revert acc. induction l as [|[name importance] l IH]; intros acc;
    cbn [fold_left filter map].
  - now rewrite app_nil_r.
  - rewrite IH. unfold Spiral.key_features_step. cbn [fst].
    destruct (dict_has name features); cbn [map]; [|reflexivity].
    now rewrite <- app_assoc.
Qed.

Lemma key_features_closed (features : list (string * F)) :
  Spiral._get_key_features features
  = map (entry features)
        (filter (fun item => dict_has (fst item) features)
                Spiral.feature_importance).
Proof. unfold Spiral._get_key_features. now rewrite key_features_fold. Qed.
End KeyFeatures.

Lemma StronglySorted_filter {A : Type} (R : A -> A -> Prop) (p : A -> bool)
    (l : list A) :
  StronglySorted R l -> StronglySorted R (filter p l).
Proof.
  induction 1 as [|x l _ IH Hx]; cbn; [constructor|].
  destruct (p x); [|exact IH].
  constructor; [exact IH|].
  apply Forall_forall. intros y Hy. apply filter_In in Hy.
  rewrite Forall_forall in Hx. now apply Hx.
Qed.

Lemma StronglySorted_map {A B : Type} (R : B -> B -> Prop) (f : A -> B)
    (l : list A) :
  StronglySorted (fun a b => R (f a) (f b)) l -> StronglySorted R (map f l).
Proof.
  induction 1 as [|x l _ IH Hx]; cbn; constructor; [exact IH|].
  apply Forall_forall. intros y Hy. apply in_map_iff in Hy.
  destruct Hy as (a & <- & Ha). rewrite Forall_forall in Hx. now apply Hx.
Qed.

Lemma map_fst_filter {A B : Type} (p : A -> bool) (l : list (A * B)) :
  map fst (filter (fun item => p (fst item)) l) = filter p (map fst l).
Proof.
  induction l as [|[a b] l IH]; cbn [filter map fst]; [reflexivity|].
  destruct (p a); cbn [map fst]; now rewrite IH.
Qed.

(** [_get_key_features] lists, in the fixed order of the importance
    table, exactly the table's names that are keys of [features]; each
    entry carries the feature's own value, a description from the
    description table (never the "Feature: ..." default) and a category
    from the category table (never "general").  Over the rationals the
    importance scores of the list are strictly decreasing. *)
Theorem spiral_key_features_listing :
  (forall (F : Type) (N : PyNum F) (features : list (string * F)),
      map Spiral.feature_name (Spiral._get_key_features features)
      = filter (fun name => dict_has name features)
               ["tremor_amplitude"; "motor_control_score";
                "drawing_consistency"; "line_smoothness"; "tremor_severity";
                "spiral_deviation"; "pressure_variation"; "coordination_index"] /\
      Forall (fun k =>
                Spiral.value k
                = dict_get features (Spiral.feature_name k) (lit 0) /\
                Spiral.description k
                <> ("Feature: " ++ Spiral.feature_name k)%string /\
                Spiral.category k <> "general")
             (Spiral._get_key_features features)) /\
  (forall features : list (string * Q),
      StronglySorted
        (fun a b => (Spiral.importance_score b < Spiral.importance_score a)%Q)
        (Spiral._get_key_features features)).
Proof.
  split.
  - intros F N features. rewrite key_features_closed. split.
    + rewrite map_map. cbn [Spiral.feature_name].
      now rewrite (map_fst_filter (fun name => dict_has name features)).
    + apply Forall_forall. intros k Hk. apply in_map_iff in Hk.
      destruct Hk as ([name importance] & <- & Hin).
      apply filter_In in Hin. destruct Hin as [Hin _].
      cbn [Spiral.value Spiral.feature_name Spiral.description Spiral.category fst snd].
      split; [reflexivity|].
      unfold Spiral.feature_importance in Hin. cbn [In] in Hin.
      repeat (destruct Hin as [Hin | Hin];
              [injection Hin as <- _; split; discriminate|]).
      contradiction.
  - intros features. rewrite key_features_closed.
    apply StronglySorted_map. cbn [Spiral.importance_score].
    apply StronglySorted_filter.
    unfold Spiral.feature_importance. cbn [lit PyNum_Q snd].
    repeat (constructor; [|repeat (constructor; [reflexivity|]); constructor]).
    constructor.
Qed.

(** ** The DATScan predictor *)

(** Whatever [np.mean] and [np.std] return for the feature vector, the
    DATScan predictor returns a result fusion can take.
    - Over the rationals: probability_pd lies in [0.1, 0.9],
      probability_healthy is its complement, the confidence lies in
      [0.3, 0.95], the prediction is 1 exactly when probability_pd exceeds
      0.5, and the result meets every condition of [valid_result].
    - On binary64: probability_pd is never below 0.1 nor above 0.9 and the
      confidence never below 0.3 nor above 0.95. *)
Theorem datscan_prediction_well_formed :
  (forall (ndarray : Type) (np_mean np_std : ndarray -> Q) (features : ndarray),
      valid_result (as_result (Datscan._mock_prediction np_mean np_std features)) /\
      (0.1 <= predicted_probability_pd
                (Datscan._mock_prediction np_mean np_std features) <= 0.9)%Q /\
      (0.3 <= predicted_confidence
                (Datscan._mock_prediction np_mean np_std features) <= 0.95)%Q /\
      (prediction (Datscan._mock_prediction np_mean np_std features) = 1%Z <->
       (0.5 < predicted_probability_pd
                (Datscan._mock_prediction np_mean np_std features))%Q)) /\
  (forall (ndarray : Type) (np_mean np_std : ndarray -> float)
          (features : ndarray),
      PrimFloat.ltb (predicted_probability_pd
                       (Datscan._mock_prediction np_mean np_std features)) 0.1
      = false /\
      PrimFloat.ltb 0.9 (predicted_probability_pd
                           (Datscan._mock_prediction np_mean np_std features))
      = false /\
      PrimFloat.ltb (predicted_confidence
                       (Datscan._mock_prediction np_mean np_std features)) 0.3
      = false /\
      PrimFloat.ltb 0.95 (predicted_confidence
                            (Datscan._mock_prediction np_mean np_std features))
      = false).
Proof.
  split.
  - intros ndarray np_mean np_std features.
    unfold Datscan._mock_prediction.
    set (x := add (lit 0.3) _). set (c := add (lit 0.6) _).
    cbn [predicted_probability_pd predicted_confidence prediction lit sub PyNum_Q].
    split; [apply clamped_result_valid|].
    split; [apply np_clip_Q_bounds; discriminate|].
    split; [apply np_clip_Q_bounds; discriminate|].
    cbn [gtb PyNum_Q].
    destruct (Qgtb (np_clip x 0.1 0.9) 0.5) eqn:G.
    + apply Qgtb_lt in G. split; [intros _; exact G | reflexivity].
    + apply Qgtb_le in G. split; [discriminate | intros L; exfalso; lra].
  - intros ndarray np_mean np_std features.
    unfold Datscan._mock_prediction.
    cbn [predicted_probability_pd predicted_confidence].
    set (x := add (lit 0.3) _). set (c := add (lit 0.6) _).
    destruct (clamped_float x 0.1 0.9) as (A1 & A2 & _); try reflexivity.
    destruct (clamped_float c 0.3 0.95) as (B1 & B2 & _); try reflexivity.
    repeat split; assumption.
Qed.

(** Over the rationals, for a feature vector as [np.random.rand] draws it
    (mean between 0 and 1, standard deviation not negative):
    probability_pd is [0.3 + 0.4 * mean], between 0.3 and 0.7, so the
    clamp to [0.1, 0.9] never acts; the confidence is at least 0.6; and a
    larger standard deviation never gives a smaller confidence. *)
Theorem datscan_prediction_ranges :
  forall (ndarray : Type) (np_mean np_std : ndarray -> Q) (a b : ndarray),
    (0 <= np_mean a <= 1)%Q -> (0 <= np_std a)%Q -> (np_std a <= np_std b)%Q ->
    (predicted_probability_pd (Datscan._mock_prediction np_mean np_std a)
     == 0.3 + 0.4 * np_mean a)%Q /\
    (0.3 <= predicted_probability_pd (Datscan._mock_prediction np_mean np_std a)
     <= 0.7)%Q /\
    (0.6 <= predicted_confidence (Datscan._mock_prediction np_mean np_std a))%Q /\
    (predicted_confidence (Datscan._mock_prediction np_mean np_std a)
     <= predicted_confidence (Datscan._mock_prediction np_mean np_std b))%Q.
Proof.
  intros ndarray np_mean np_std a b Hm Hs Hab.
  unfold Datscan._mock_prediction.
  cbn [predicted_probability_pd predicted_confidence add mul lit PyNum_Q].
  assert (P : (np_clip (0.3 + np_mean a * 0.4) 0.1 0.9
               == 0.3 + 0.4 * np_mean a)%Q).
  { rewrite np_clip_Q by discriminate.
    destruct (Qlt_le_dec (0.3 + np_mean a * 0.4) 0.1); [exfalso; lra|].
    destruct (Qlt_le_dec 0.9 (0.3 + np_mean a * 0.4)); [exfalso; lra|ring]. }
  split; [exact P|]. split; [rewrite P; lra|]. split.
  - rewrite np_clip_Q by discriminate.
    destruct (Qlt_le_dec (0.6 + np_std a * 0.3) 0.3); [exfalso; lra|].
    destruct (Qlt_le_dec 0.95 (0.6 + np_std a * 0.3)); [discriminate | lra].
  - apply np_clip_Q_monotone; [discriminate | lra].
Qed.

Lemma datscan_prediction_ranges_witness :
  (predicted_probability_pd
     (Datscan._mock_prediction (fun a : Q * Q => fst a) (fun a => snd a)
                               (0.5, 0.25)%Q)
   == 0.5)%Q /\
  (predicted_confidence
     (Datscan._mock_prediction (fun a : Q * Q => fst a) (fun a => snd a)
                               (0.5, 0.25)%Q)
   <= predicted_confidence
        (Datscan._mock_prediction (fun a : Q * Q => fst a) (fun a => snd a)
                                  (0.5, 0.3)%Q))%Q.
Proof.
  destruct (datscan_prediction_ranges (Q * Q) (fun a => fst a) (fun a => snd a)
              (0.5, 0.25)%Q (0.5, 0.3)%Q) as (P & _ & _ & C);
    cbn [fst snd]; try (split; discriminate); try discriminate.
  split; [|exact C].
  rewrite P. reflexivity.
Defined.



(** ** The clinical summary *)

Lemma string_app_assoc (a b c : string) :
  ((a ++ b) ++ c = a ++ (b ++ c))%string.
Proof. induction a as [|x a IH]; cbn; [reflexivity | now rewrite IH]. Qed.

Lemma string_app_nil_r (a : string) : (a ++ "" = a)%string.
Proof. induction a as [|x a IH]; cbn; [reflexivity | now rewrite IH]. Qed.

(** A verdict whose prediction is not 1 is summarised without a look at
    the modalities or at probability_pd: the text depends on the
    confidence alone and always ends with "All analyzed modalities are
    within normal ranges."  In particular, when fusion falls back for lack
    of weight (no result at all, or only results of zero weight), the
    summary is the one of a healthy verdict of limited confidence; it does
    not say that data was insufficient.  The latter holds on binary64 and
    over the rationals. *)
Theorem clinical_summary_without_disease :
  (forall (F : Type) (N : PyNum F) (format_percent : F -> string)
          (v v' : verdict F) (ir ir' : results F),
      fusion_prediction v <> 1%Z -> fusion_prediction v' <> 1%Z ->
      fusion_confidence v = fusion_confidence v' ->
      _generate_clinical_summary format_percent v ir
      = _generate_clinical_summary format_percent v' ir' /\
      exists intro,
        _generate_clinical_summary format_percent v ir
        = (intro ++ "All analyzed modalities are within normal ranges.")%string) /\
  (forall (format_percent : float -> string) (l ir : results float),
      Forall weightless l ->
      _generate_clinical_summary format_percent (_perform_late_fusion l) ir
      = "Multi-modal analysis suggests healthy status, though with limited confidence. All analyzed modalities are within normal ranges.") /\
  (forall (format_percent : Q -> string) (l ir : results Q),
      Forall weightless l ->
      _generate_clinical_summary format_percent (_perform_late_fusion l) ir
      = "Multi-modal analysis suggests healthy status, though with limited confidence. All analyzed modalities are within normal ranges.").
Proof.
  assert (Fb : forall (F : Type) (N : PyNum F) (L : PyNumLaws F) (l : results F),
             Forall weightless l -> _perform_late_fusion l = fallback_verdict).
  { intros F N L l Hl. apply zero_weight_fallback, eqb_not_gtb.
    apply weightless_total; [exact Hl | apply eqb_zero_refl]. }
  split; [|split].
  - intros F N format_percent v v' ir ir' Hv Hv' Hc.
    unfold _generate_clinical_summary.
    destruct (fusion_prediction v =? 1)%Z eqn:E;
      [apply Z.eqb_eq in E; contradiction|].
    destruct (fusion_prediction v' =? 1)%Z eqn:E';
      [apply Z.eqb_eq in E'; contradiction|].
    rewrite <- Hc. split; [reflexivity|]. eexists. reflexivity.
  - intros format_percent l ir Hl. now rewrite (Fb float _ _ l Hl).
  - intros format_percent l ir Hl. now rewrite (Fb Q _ _ l Hl).
Qed.

(** A verdict whose prediction is 1 is summarised by an opening that
    names the confidence tier (high above 0.8, moderate above 0.6, low
    otherwise) and the formatted probability, followed by one fixed
    sentence per modality that is a key of [individual_results], in the
    order datscan, voice, spiral, and by nothing else. *)
Theorem clinical_summary_with_disease :
  forall (F : Type) (N : PyNum F) (format_percent : F -> string)
         (v : verdict F) (ir : results F),
    fusion_prediction v = 1%Z ->
    _generate_clinical_summary format_percent v ir
    = ("Multi-modal analysis indicates "
       ++ (if gtb (fusion_confidence v) (lit 0.8) then "high confidence"
           else if gtb (fusion_confidence v) (lit 0.6) then "moderate confidence"
           else "low confidence")
       ++ " for Parkinson's Disease (probability: "
       ++ format_percent (fusion_probability_pd v) ++ "). "
       ++ (if has_key "datscan" ir
           then "DATScan imaging shows reduced dopamine transporter activity. "
           else "")
       ++ (if has_key "voice" ir
           then "Voice analysis reveals characteristic vocal changes. "
           else "")
       ++ (if has_key "spiral" ir
           then "Spiral drawing demonstrates motor control deficits. "
           else ""))%string.
Proof.
  intros F N format_percent v ir Hv.
  unfold _generate_clinical_summary. rewrite Hv. cbn [Z.eqb Pos.eqb].
  set (severity := if gtb (fusion_confidence v) (lit 0.8) then _ else _).
  destruct (has_key "datscan" ir), (has_key "voice" ir), (has_key "spiral" ir);
    rewrite ?string_app_assoc, ?string_app_nil_r; cbn [String.append];
    rewrite ?string_app_assoc, ?string_app_nil_r; reflexivity.
Qed.

Lemma clinical_summary_with_disease_witness :
  _generate_clinical_summary (fun _ => "87.1%")
    (_perform_late_fusion Samples.both_pd) Samples.both_pd
  = "Multi-modal analysis indicates high confidence for Parkinson's Disease (probability: 87.1%). DATScan imaging shows reduced dopamine transporter activity. Voice analysis reveals characteristic vocal changes. ".
Proof.
  assert (P : fusion_prediction (_perform_late_fusion Samples.both_pd) = 1%Z)
    by (vm_compute; reflexivity).
  rewrite (clinical_summary_with_disease float _ (fun _ => "87.1%")
             (_perform_late_fusion Samples.both_pd) Samples.both_pd P).
  vm_compute. reflexivity.
Defined.

(** ** The voice analyzer *)

Lemma dict_get_absent {V : Type} (d : list (string * V)) (key : string)
    (default : V) :
  dict_has key d = false -> dict_get d key default = default.
Proof.
  induction d as [|[k v] d IH]; cbn; [reflexivity|].
  destruct (String.eqb k key); cbn; [discriminate | exact IH].
Qed.

Lemma nan_to_num_finite (x : float) :
  PrimFloat.is_finite (Voice.nan_to_num x) = true.
Proof.
  unfold Voice.nan_to_num.
  destruct (PrimFloat.is_nan x) eqn:N; [reflexivity|].
  destruct (PrimFloat.is_infinity x) eqn:I; [reflexivity|].
  unfold PrimFloat.is_finite. now rewrite N, I.
Qed.

Lemma prepare_fold (features : list (string * float)) (expected : list string)
    (acc : list float) :
  fold_left
    (fun feature_vector feature_name =>
       if dict_has feature_name features
       then feature_vector ++ [dict_get features feature_name 0%float]
       else feature_vector ++ [0%float])
    expected acc
  = acc ++ map (fun name => dict_get features name 0%float) expected.
Proof.
  revert acc. induction expected as [|name expected IH]; intros acc;
    cbn [fold_left map].
  - now rewrite app_nil_r.
  - rewrite IH. destruct (dict_has name features) eqn:E.
    + now rewrite <- app_assoc.
    + rewrite (dict_get_absent _ _ _ E). now rewrite <- app_assoc.
Qed.

(** The vector handed to the model has one entry per expected feature
    name, in the order of the expected names: the feature's value, or 0.0
    when the feature is missing, with NaN and both infinities replaced by
    0.0.  So every entry is finite, and features that are not expected
    play no part. *)
Theorem prepared_features_aligned :
  forall (expected : list string) (features features' : list (string * float)),
    Voice._prepare_features_for_prediction expected features
    = map (fun name => Voice.nan_to_num (dict_get features name 0%float))
          expected /\
    List.length (Voice._prepare_features_for_prediction expected features)
    = List.length expected /\
    Forall (fun x => PrimFloat.is_finite x = true)
           (Voice._prepare_features_for_prediction expected features) /\
    ((forall name, In name expected ->
                   dict_get features name 0%float
                   = dict_get features' name 0%float) ->
     Voice._prepare_features_for_prediction expected features
     = Voice._prepare_features_for_prediction expected features').
Proof.
  intros expected features features'.
  assert (C : forall f,
             Voice._prepare_features_for_prediction expected f
             = map (fun name => Voice.nan_to_num (dict_get f name 0%float))
                   expected).
  { intros f. unfold Voice._prepare_features_for_prediction.
    rewrite prepare_fold. cbn [app]. now rewrite map_map. }
  split; [apply C|]. split; [rewrite C; apply length_map|]. split.
  - rewrite C. apply Forall_forall. intros x Hx.
    apply in_map_iff in Hx. destruct Hx as (name & <- & _).
    apply nan_to_num_finite.
  - intros E. rewrite !C. apply map_ext_in. intros name Hn.
    now rewrite (E name Hn).
Qed.

(** The interpretation always carries four findings and four
    recommendations, chosen by the prediction alone.  The risk level is
    "High" exactly for a prediction of 1 with confidence above 0.8, and
    "Moderate" exactly for a prediction of 1 with confidence above 0.6 but
    not above 0.8; any other prediction is reported as "Very Low" (above
    0.8) or "Low".  The confidence level is "High" exactly above 0.8. *)
Theorem voice_interpretation_levels :
  forall (F : Type) (N : PyNum F) (prediction : Z) (confidence : F),
    List.length (Voice.key_findings
                   (Voice._create_clinical_interpretation prediction confidence))
    = 4%nat /\
    List.length (Voice.recommendations
                   (Voice._create_clinical_interpretation prediction confidence))
    = 4%nat /\
    (Voice.risk_level (Voice._create_clinical_interpretation prediction confidence)
     = "High"
     <-> prediction = 1%Z /\ gtb confidence (lit 0.8) = true) /\
    (Voice.risk_level (Voice._create_clinical_interpretation prediction confidence)
     = "Moderate"
     <-> prediction = 1%Z /\ gtb confidence (lit 0.8) = false /\
         gtb confidence (lit 0.6) = true) /\
    (prediction <> 1%Z ->
     Voice.risk_level (Voice._create_clinical_interpretation prediction confidence)
     = (if gtb confidence (lit 0.8) then "Very Low" else "Low")) /\
    (Voice.confidence_level
       (Voice._create_clinical_interpretation prediction confidence) = "High"
     <-> gtb confidence (lit 0.8) = true).
Proof.
  intros F N prediction confidence.
  unfold Voice._create_clinical_interpretation.
  destruct (prediction =? 1)%Z eqn:E.
  - apply Z.eqb_eq in E.
    destruct (gtb confidence (lit 0.8)), (gtb confidence (lit 0.6));
      cbn; repeat split; intros; try tauto; try congruence;
      try (destruct H as (? & ? & ?); congruence);
      try (destruct H as (? & ?); congruence).
  - apply Z.eqb_neq in E.
    destruct (gtb confidence (lit 0.8)), (gtb confidence (lit 0.6));
      cbn; repeat split; intros; try tauto; try congruence;
      try (destruct H as (? & ? & ?); congruence);
      try (destruct H as (? & ?); congruence).
Qed.

(** *** The ten most important features *)

Section TopFeatures.
Local Open Scope Q_scope.

Local Abbreviation score := (Voice.importance_score (F:=Q)).

Lemma insert_by_score_perm (x : Voice.feature_importance Q) l :
  Permutation (Voice.insert_by_score x l) (x :: l).
Proof.
  induction l as [|y l IH]; cbn [Voice.insert_by_score];
    [apply Permutation_refl|].
  destruct (gtb (score y) (score x)); [|apply Permutation_refl].
  eapply Permutation_trans; [apply perm_skip, IH | apply perm_swap].
Qed.

Lemma sort_by_score_perm (l : list (Voice.feature_importance Q)) :
  Permutation (Voice.sort_by_score l) l.
Proof.
  induction l as [|x l IH]; cbn [Voice.sort_by_score]; [constructor|].
  eapply Permutation_trans; [apply insert_by_score_perm | now apply perm_skip].
Qed.

Lemma insert_by_score_sorted (x : Voice.feature_importance Q) l :
  StronglySorted (fun a b => score b <= score a) l ->
  StronglySorted (fun a b => score b <= score a) (Voice.insert_by_score x l).
Proof.
  induction 1 as [|y l Hl IH Hy]; cbn [Voice.insert_by_score].
  - repeat constructor.
  - destruct (gtb (score y) (score x)) eqn:G.
    + cbn [gtb PyNum_Q] in G. apply Qgtb_lt in G.
      constructor; [exact IH|].
      apply Forall_forall. intros z Hz.
      apply (Permutation_in _ (insert_by_score_perm x l)) in Hz.
      destruct Hz as [<- | Hz]; [now apply Qlt_le_weak|].
      rewrite Forall_forall in Hy. now apply Hy.
    + cbn [gtb PyNum_Q] in G. apply Qgtb_le in G.
      constructor; [now constructor|].
      constructor; [exact G|].
      apply Forall_forall. intros z Hz. rewrite Forall_forall in Hy.
      apply Qle_trans with (score y); [now apply Hy | exact G].
Qed.

Lemma sort_by_score_sorted (l : list (Voice.feature_importance Q)) :
  StronglySorted (fun a b => score b <= score a) (Voice.sort_by_score l).
Proof.
  induction l as [|x l IH]; cbn [Voice.sort_by_score]; [constructor|].
  now apply insert_by_score_sorted.
Qed.

Lemma StronglySorted_app {A : Type} (R : A -> A -> Prop) (l1 l2 : list A) :
  StronglySorted R (l1 ++ l2) ->
  StronglySorted R l1 /\ forall x y, In x l1 -> In y l2 -> R x y.
Proof.
  induction l1 as [|a l1 IH]; cbn; intros S.
  - split; [constructor | contradiction].
  - inversion S as [|? ? S' Ha]; subst. destruct (IH S') as [S1 C].
    rewrite Forall_forall in Ha. split.
    + constructor; [exact S1|]. apply Forall_forall. intros z Hz.
      apply Ha, in_or_app. now left.
    + intros x y [<- | Hx] Hy; [apply Ha, in_or_app; now right | now apply C].
Qed.

Lemma candidates_fold {V : Type} (features : list (string * V))
    (l : list (string * Q)) (acc : list (Voice.feature_importance Q)) :
  fold_left
    (fun feature_list item =>
       let (feature_name, importance_score) := (item : string * Q) in
       if dict_has feature_name features then
         let (category, description) :=
           Voice.describe Voice.feature_descriptions feature_name in
         feature_list
         ++ [Voice.mk_feature_importance feature_name importance_score
                                         description category]
       else feature_list)
    l acc
  = acc ++ map (fun item =>
                  Voice.mk_feature_importance (fst item) (snd item)
                    (snd (Voice.describe Voice.feature_descriptions (fst item)))
                    (fst (Voice.describe Voice.feature_descriptions (fst item))))
               (filter (fun item => dict_has (fst item) features) l).
Proof.
  revert acc. induction l as [|[name importance] l IH]; intros acc;
    cbn [fold_left filter map fst snd].
  - now rewrite app_nil_r.
  - rewrite IH. destruct (dict_has name features); cbn [map fst snd];
      [|reflexivity].
    destruct (Voice.describe Voice.feature_descriptions name) as [c d].
    cbn [fst snd]. now rewrite <- app_assoc.
Qed.
End TopFeatures.

(** Over the rationals, [_get_top_features] returns at most ten entries,
    by importance from the highest down.  Every entry is a feature that is
    a key of [features] with its own score from the importance dict; and
    every such feature is either returned, or left out of a full list of
    ten whose entries all score at least as much. *)
Theorem top_features_are_the_top :
  forall (V : Type) (features : list (string * V))
         (importance : list (string * Q)),
    (List.length (Voice._get_top_features features importance) <= 10)%nat /\
    StronglySorted
      (fun a b => (Voice.importance_score b <= Voice.importance_score a)%Q)
      (Voice._get_top_features features importance) /\
    (forall t, In t (Voice._get_top_features features importance) ->
               dict_has (Voice.feature_name t) features = true /\
               In (Voice.feature_name t, Voice.importance_score t) importance) /\
    (forall name score,
        In (name, score) importance -> dict_has name features = true ->
        (exists t, In t (Voice._get_top_features features importance) /\
                   Voice.feature_name t = name /\
                   Voice.importance_score t = score) \/
        (List.length (Voice._get_top_features features importance) = 10%nat /\
         forall t, In t (Voice._get_top_features features importance) ->
                   (score <= Voice.importance_score t)%Q)).
Proof.
  intros V features importance.
  unfold Voice._get_top_features. rewrite candidates_fold. cbn [app].
  set (candidates := map _ (filter _ importance)).
  pose proof (sort_by_score_sorted candidates) as S.
  pose proof (sort_by_score_perm candidates) as P.
  rewrite <- (firstn_skipn 10 (Voice.sort_by_score candidates)) in S.
  apply StronglySorted_app in S. destruct S as [S1 S2].
  assert (Hc : forall t, In t candidates ->
                 dict_has (Voice.feature_name t) features = true /\
                 In (Voice.feature_name t, Voice.importance_score t) importance).
  { intros t Ht. apply in_map_iff in Ht. destruct Ht as ([n s] & <- & Hi).
    apply filter_In in Hi. cbn [fst snd] in *. destruct Hi as [Hi Hp].
    now split. }
  split; [apply firstn_le_length|]. split; [exact S1|]. split.
  - intros t Ht. apply Hc. apply (Permutation_in _ P).
    rewrite <- (firstn_skipn 10 (Voice.sort_by_score candidates)).
    apply in_or_app. now left.
  - intros name score Hi Hp.
    set (c := Voice.mk_feature_importance name score
                (snd (Voice.describe Voice.feature_descriptions name))
                (fst (Voice.describe Voice.feature_descriptions name))).
    assert (Hin : In c candidates).
    { apply in_map_iff. exists (name, score). split; [reflexivity|].
      apply filter_In. now split. }
    apply (Permutation_in _ (Permutation_sym P)) in Hin.
    rewrite <- (firstn_skipn 10 (Voice.sort_by_score candidates)) in Hin.
    apply in_app_or in Hin. destruct Hin as [Hin | Hin].
    + left. exists c. now repeat split.
    + right. split.
      * apply firstn_length_le.
        destruct (Nat.le_gt_cases 10 (List.length (Voice.sort_by_score candidates)))
          as [L | L]; [exact L|].
        rewrite skipn_all2 in Hin by lia. contradiction.
      * intros t Ht. apply (S2 t c Ht Hin).
Qed.

(** ** The single-modality endpoints *)

Lemma split_no_sep_app (sep : ascii) (a b : string) :
  split sep a = [a] ->
  split sep (a ++ String sep b) = a :: split sep b.
Proof.
  induction a as [|c a IH]; cbn [split String.append].
  - intros _. now rewrite Ascii.eqb_refl.
  - destruct (Ascii.eqb c sep); [discriminate|].
    destruct (split sep a) as [|piece pieces] eqn:E.
    + intros _. destruct a; cbn in E; [discriminate|].
      destruct (Ascii.eqb a sep); [discriminate|].
      destruct (split sep a0); discriminate.
    + intros H. injection H as Hp Hs. subst piece pieces.
      now rewrite (IH eq_refl).
Qed.

Lemma prefix_app (p a b : string) :
  String.prefix p a = true -> String.prefix p (a ++ b) = true.
Proof.
  revert p. induction a as [|d a IH]; intros p; cbn.
  - destruct p; [intros _; now destruct b | discriminate].
  - destruct p as [|c p]; [reflexivity|].
    destruct (Ascii.ascii_dec c d); [apply IH | discriminate].
Qed.

(** The spiral endpoint answers with the analysis or with status 400
    "Invalid spiral image data", and with nothing else: every exception of
    the service ends as that 400, none as a 500.  A data-URL header with no
    comma after it is refused without the service being consulted.  With a
    header, a comma and a payload free of commas, the service is called on
    the payload. *)
Theorem spiral_endpoint_failures_are_400 :
  forall (F A : Type) (analyze_spiral : string -> option F -> py A)
         (spiral_data header payload : string) (drawing_time : option F),
    ((exists result,
         spiral_analysis analyze_spiral spiral_data drawing_time = Http_ok result) \/
     spiral_analysis analyze_spiral spiral_data drawing_time
     = Http_error 400 "Invalid spiral image data") /\
    (String.prefix "data:image" header = true ->
     split ","%char header = [header] ->
     spiral_analysis analyze_spiral header drawing_time
     = Http_error 400 "Invalid spiral image data") /\
    (String.prefix "data:image" header = true ->
     split ","%char header = [header] ->
     split ","%char payload = [payload] ->
     spiral_analysis analyze_spiral (header ++ "," ++ payload) drawing_time
     = match analyze_spiral payload drawing_time with
       | inr result => Http_ok result
       | inl _ => Http_error 400 "Invalid spiral image data"
       end).
Proof.
  intros F A analyze_spiral spiral_data header payload drawing_time.
  split; [|split].
  - unfold spiral_analysis.
    destruct (strip_data_url spiral_data) as [e|s]; [now right|].
    destruct (analyze_spiral s drawing_time) as [e|r]; [now right|].
    left. now exists r.
  - intros Hp Hs. unfold spiral_analysis, strip_data_url.
    now rewrite Hp, Hs.
  - intros Hp Hs Hq. unfold spiral_analysis, strip_data_url.
    rewrite (prefix_app _ _ _ Hp).
    change ("," ++ payload)%string with (String ","%char payload).
    rewrite (split_no_sep_app _ _ _ Hs), Hq. reflexivity.
Qed.

(** A PNG data URL reaches the service as its payload; the bare header is
    refused. *)
Lemma spiral_endpoint_failures_are_400_witness :
  spiral_analysis (F:=Q) (fun data _ => inr data)
                  "data:image/png;base64,iVBORw0KGgo=" None
  = Http_ok "iVBORw0KGgo=" /\
  spiral_analysis (F:=Q) (A:=string) (fun data _ => inr data)
                  "data:image/png;base64" None
  = Http_error 400 "Invalid spiral image data".
Proof.
  destruct (spiral_endpoint_failures_are_400 Q string (fun data _ => inr data)
              "" "data:image/png;base64" "iVBORw0KGgo=" None)
    as (_ & Refused & Passed).
  split.
  - exact (Passed eq_refl eq_refl eq_refl).
  - exact (Refused eq_refl eq_refl).
Defined.

Lemma endswith_spec (s suffix : string) :
  endswith s suffix = true <-> exists stem, s = (stem ++ suffix)%string.
Proof.
  split.
  - induction s as [|c s IH]; cbn [endswith].
    + rewrite orb_false_r. intros E. apply String.eqb_eq in E.
      exists ""%string. now subst.
    + intros E. apply orb_true_iff in E. destruct E as [E | E].
      * apply String.eqb_eq in E. exists ""%string. now subst.
      * destruct (IH E) as [stem ->]. now exists (String c stem).
  - intros [stem ->]. induction stem as [|c stem IH]; cbn [String.append].
    + destruct suffix; cbn [endswith]; now rewrite String.eqb_refl.
    + cbn [endswith]. rewrite IH. apply orb_true_r.
Qed.

Lemma to_lower_to_upper (c : ascii) :
  Voice.to_lower (Voice.to_upper c) = Voice.to_lower c.
Proof.
  destruct c as [[] [] [] [] [] [] [] []]; reflexivity.
Qed.

Lemma lower_upper (s : string) : lower (upper s) = lower s.
Proof.
  induction s as [|c s IH]; cbn; [reflexivity|].
  now rewrite to_lower_to_upper, IH.
Qed.

Lemma endswith_any_spec (s : string) (suffixes : list string) :
  endswith_any s suffixes = true
  <-> exists stem suffix, In suffix suffixes /\ s = (stem ++ suffix)%string.
Proof.
  unfold endswith_any. rewrite existsb_exists. split.
  - intros (suffix & Hin & E). apply endswith_spec in E.
    destruct E as [stem ->]. now exists stem, suffix.
  - intros (stem & suffix & Hin & ->). exists suffix.
    split; [exact Hin | apply endswith_spec; now exists stem].
Qed.

(** The two upload endpoints, for an upload whose file name is ASCII text.
    - [/datscan-analyze] runs the analysis exactly for a file name whose
      lowered form is some stem, possibly empty, followed by .dcm, .nii,
      .jpg or .png; every other name is refused with status 400, whatever
      the analysis would give.  An accepted upload yields the analysis, or
      status 500 with the exception's message after
      "DATScan analysis failed: ".  Upper-casing the file name changes
      nothing.
    - [/predict] answers 503 whenever the voice analyzer is not
      initialised, whatever the file name, and so before any look at the
      extension; with an analyzer, upper-casing the file name changes
      nothing either. *)
Theorem upload_endpoints_status :
  forall (UploadFile A : Type) (save_upload : UploadFile -> py string)
         (analyze_datscan analyze_voice : string -> py A)
         (filename : string) (file : UploadFile),
    isascii filename = true ->
    ((exists stem ext,
         In ext [".dcm"; ".nii"; ".jpg"; ".png"] /\
         lower filename = (stem ++ ext)%string) \/
     datscan_analysis save_upload analyze_datscan filename file
     = Http_error 400
         "Unsupported file format. Please upload DICOM, NIfTI, JPG, or PNG files.") /\
    ((exists stem ext,
         In ext [".dcm"; ".nii"; ".jpg"; ".png"] /\
         lower filename = (stem ++ ext)%string) ->
     (exists result,
         datscan_analysis save_upload analyze_datscan filename file
         = Http_ok result) \/
     (exists e,
         datscan_analysis save_upload analyze_datscan filename file
         = Http_error 500 ("DATScan analysis failed: " ++ str e)%string)) /\
    datscan_analysis save_upload analyze_datscan (upper filename) file
    = datscan_analysis save_upload analyze_datscan filename file /\
    predict_from_file (A:=A) save_upload None filename file
    = Http_error 503 "Voice analyzer not initialized" /\
    predict_from_file save_upload (Some analyze_voice) (upper filename) file
    = predict_from_file save_upload (Some analyze_voice) filename file.
Proof.
  intros UploadFile A save_upload analyze_datscan analyze_voice filename file _.
  unfold datscan_analysis, predict_from_file.
  split; [|split; [|split; [|split]]].
  - destruct (endswith_any (lower filename) _) eqn:E; [left | now right].
    now apply endswith_any_spec.
  - intros E. apply endswith_any_spec in E. rewrite E. cbn [negb].
    destruct (save_upload file) as [e|path]; [right; now exists e|].
    destruct (analyze_datscan path) as [e|r];
      [right; now exists e | left; now exists r].
  - now rewrite lower_upper.
  - reflexivity.
  - now rewrite lower_upper.
Qed.

(** An upper-case extension is accepted like the lower-case one. *)
Lemma upload_endpoints_status_witness :
  datscan_analysis (fun _ : unit => inr "/tmp/upload.jpg")
                   (fun path => inr path) "SCAN.JPG" tt
  = datscan_analysis (fun _ : unit => inr "/tmp/upload.jpg")
                     (fun path => inr path) "scan.jpg" tt.
Proof.
  exact (proj1 (proj2 (proj2
           (upload_endpoints_status unit string
              (fun _ => inr "/tmp/upload.jpg") (fun path => inr path)
              (fun path => inr path) "scan.jpg" tt eq_refl)))).
Defined.

(** [/model-info] refuses with status 503 while the model is not loaded.
    Once it is, [features_count] is the number of feature names and
    [sample_features] is their first ten, or all of them when there are
    fewer: never more than ten entries, and none when the names are
    missing. *)
Theorem model_info_sample :
  forall (loaded_names : option (list string)),
    get_model_info false loaded_names = Http_error 503 "Model not loaded" /\
    get_model_info true None = Http_ok (mk_model_info 0 []) /\
    (forall names,
        get_model_info true (Some names)
        = Http_ok (mk_model_info (List.length names) (firstn 10 names)) /\
        (List.length (firstn 10 names) <= 10)%nat).
Proof.
  intros loaded_names. split; [reflexivity|]. split; [reflexivity|].
  intros names. split; [|apply firstn_le_length].
  unfold get_model_info. cbn [negb].
  destruct names as [|name names]; [reflexivity|].
  destruct (10 <? List.length (name :: names))%nat eqn:E; [reflexivity|].
  apply Nat.ltb_ge in E. now rewrite firstn_all2.
Qed.

(** ** A request that carries a spiral drawing only *)




Section SpiralOnly.
Context {UploadFile Image : Type}.
Variable np_std : list Q -> Q.
Variable format_percent : Q -> string.
Variable open_image : string -> py Image.
Variable _extract_spiral_features : Image -> option Q -> list (string * Q).



End SpiralOnly.

